(** * CoAP content-negotiation calculator

    A shallow embedding of [coap-content-negotiation-calculator.js]: the
    expansion of the Thing Description forms per content type, and the
    request handler that serves the accumulator ([result], [lastChange])
    in JSON or CBOR.

    JavaScript numbers are IEEE 754 binary64 values, so they are modelled
    with Rocq's primitive floats; [===] on numbers is [PrimFloat.eqb]. *)

From Stdlib Require Import Bool Arith ZArith Lia List String Ascii Floats Permutation.
Import ListNotations.

Local Open Scope string_scope.
Local Open Scope list_scope.

(** ** Strings as the handler uses them *)

Module Str.

(** [s.split(sep)] for a one-character separator: the segments between
    the separators, in order; a string without separator is one segment. *)
Fixpoint split_from (sep : ascii) (cur : string) (s : string) : list string :=
  match s with
  | EmptyString => [cur]
  | String c s' =>
      if Ascii.eqb c sep then cur :: split_from sep EmptyString s'
      else split_from sep (cur ++ String c EmptyString) s'
  end.

Definition split (sep : ascii) (s : string) : list string :=
  split_from sep EmptyString s.

(** [s.includes(pat)]: [pat] occurs somewhere in [s]. *)
Fixpoint includes (s pat : string) : bool :=
  if String.prefix pat s then true
  else match s with
       | EmptyString => false
       | String _ s' => includes s' pat
       end.

(** [xs.includes(x)] on an array of strings, for a value that may be
    [undefined] ([None]). *)
Definition array_includes (xs : list string) (x : option string) : bool :=
  match x with
  | Some s => existsb (String.eqb s) xs
  | None => false
  end.

End Str.

(** ** Creating the TD *)

Definition thingName : string := "coap-calculator-content-negotiation".

Definition supportedContentTypes : list string :=
  ["application/json"; "application/cbor"].

(** The object [formatIdentifiers], as its entries in insertion order
    (the order in which [for ... in] visits them). *)
Definition formatIdentifiers : list (string * Z) :=
  [("application/json", 50%Z); ("application/cbor", 60%Z)].

(** The [op] member of a form is a string or an array of strings. *)
Inductive Op : Type :=
| OpString (s : string)
| OpArray (l : list string).

Record FormResponse : Type := mkFormResponse {
  resp_contentType : string;
  resp_contentFormat : Z
}.

Record Form : Type := mkForm {
  href : string;
  contentType : string;
  cov_contentFormat : Z;
  op : Op;
  cov_method : string;
  cov_accept : Z;
  response : FormResponse;
  subprotocol : option string
}.

Definition defaultForm : Form :=
  {| href := "";
     contentType := "application/json";
     cov_contentFormat := 50;
     op := OpString "";
     cov_method := "";
     cov_accept := 50;
     response := {| resp_contentType := "application/json";
                    resp_contentFormat := 50 |};
     subprotocol := None |}.

(** Field updates on a (deep-copied) form. *)
Definition set_href (v : string) (f : Form) : Form :=
  mkForm v (contentType f) (cov_contentFormat f) (op f) (cov_method f)
         (cov_accept f) (response f) (subprotocol f).

Definition set_method (v : string) (f : Form) : Form :=
  mkForm (href f) (contentType f) (cov_contentFormat f) (op f) v
         (cov_accept f) (response f) (subprotocol f).

Definition set_op (v : Op) (f : Form) : Form :=
  mkForm (href f) (contentType f) (cov_contentFormat f) v (cov_method f)
         (cov_accept f) (response f) (subprotocol f).

Definition set_subprotocol (v : string) (f : Form) : Form :=
  mkForm (href f) (contentType f) (cov_contentFormat f) (op f) (cov_method f)
         (cov_accept f) (response f) (Some v).

(** The five assignments that move a form to another content type:
    [contentType], [cov:contentFormat], [cov:accept] and both members of
    [response]. *)
Definition set_format (identifier : string) (code : Z) (f : Form) : Form :=
  mkForm (href f) identifier code (op f) (cov_method f) code
         (mkFormResponse identifier code) (subprotocol f).

(** The three assignments that change only what is accepted back:
    [cov:accept] and both members of [response]. *)
Definition set_accept (identifier : string) (code : Z) (f : Form) : Form :=
  mkForm (href f) (contentType f) (cov_contentFormat f) (op f) (cov_method f)
         code (mkFormResponse identifier code) (subprotocol f).

Definition observe_ops : Op := OpArray ["observeproperty"; "unobserveproperty"].
Definition subscribe_ops : Op := OpArray ["subscribeevent"; "unsubscribeevent"].

Section FormExpansion.

(** The registry the loops iterate over. *)
Variable fi : list (string * Z).

(** Forms of the property [key]: a read form and an observe form for the
    default content type, then the same two for every other identifier. *)
Definition property_forms (key : string) : list Form :=
  let newFormRead :=
    set_op (OpString "readproperty")
      (set_method "GET" (set_href ("properties/" ++ key) defaultForm)) in
  let newFormObs :=
    set_subprotocol "cov:observe" (set_op observe_ops newFormRead) in
  let forms := [newFormRead; newFormObs] in
  let originalForm := nth 0 forms defaultForm in
  fold_left
    (fun forms (entry : string * Z) =>
       let (identifier, code) := entry in
       if negb (String.eqb (contentType originalForm) identifier) then
         let newFormRead := set_format identifier code originalForm in
         let newFormObs :=
           set_subprotocol "cov:observe" (set_op observe_ops newFormRead) in
         forms ++ [newFormRead] ++ [newFormObs]
       else forms)
    fi forms.

(** The inner loops of the action expansion: one clone of [f] per
    identifier whose format code differs from [f]'s [cov:accept]. *)
Definition accept_variants (f : Form) (forms : list Form) : list Form :=
  fold_left
    (fun forms (entry : string * Z) =>
       let (identifier, code) := entry in
       if negb (Z.eqb (cov_accept f) code) then
         forms ++ [set_accept identifier code f]
       else forms)
    fi forms.

(** Forms of the action [key]. *)
Definition action_forms (key : string) : list Form :=
  let newForm :=
    set_op (OpString "invokeaction")
      (set_method "POST" (set_href ("actions/" ++ key) defaultForm)) in
  let forms := [newForm] in
  let originalForm := nth 0 forms defaultForm in
  fold_left
    (fun forms (entry : string * Z) =>
       let (identifier, code) := entry in
       if negb (String.eqb (contentType originalForm) identifier) then
         let newForm := set_format identifier code originalForm in
         accept_variants newForm (forms ++ [newForm])
       else
         accept_variants originalForm forms)
    fi forms.

(** Forms of the event [key]: one subscribe form per identifier. *)
Definition event_forms (key : string) : list Form :=
  let newForm :=
    set_subprotocol "cov:observe"
      (set_op subscribe_ops
         (set_method "GET" (set_href ("events/" ++ key) defaultForm))) in
  let forms := [newForm] in
  let originalForm := nth 0 forms defaultForm in
  fold_left
    (fun forms (entry : string * Z) =>
       let (identifier, code) := entry in
       if negb (String.eqb (contentType originalForm) identifier) then
         forms ++ [set_format identifier code originalForm]
       else forms)
    fi forms.

End FormExpansion.

(** *** The loops in closed form

    Each loop only pushes, so the forms of an affordance are the first
    form followed by what each registry entry contributes. *)

Definition base_action_form (key : string) : Form :=
  set_op (OpString "invokeaction")
    (set_method "POST" (set_href ("actions/" ++ key) defaultForm)).

(** What one pass of an inner loop over [f] pushes for the entry [e]. *)
Definition accept_variant (f : Form) (e : string * Z) : list Form :=
  if negb (Z.eqb (cov_accept f) (snd e)) then [set_accept (fst e) (snd e) f]
  else [].

(** What one pass of the outer loop pushes for the entry [e]. *)
Definition action_row (fi : list (string * Z)) (key : string)
    (e : string * Z) : list Form :=
  if negb (String.eqb (contentType (base_action_form key)) (fst e)) then
    let newForm := set_format (fst e) (snd e) (base_action_form key) in
    newForm :: flat_map (accept_variant newForm) fi
  else flat_map (accept_variant (base_action_form key)) fi.

(** The (request content type, response content type) pair of a form. *)
Definition form_pair (f : Form) : string * string :=
  (contentType f, resp_contentType (response f)).

(** A form is an observation form when it carries the subprotocol marker. *)
Definition is_observe_form (f : Form) : bool :=
  match subprotocol f with Some _ => true | None => false end.

(** Modelled from the spec: the Thing Model file (read from [TM_PATH] at
    start-up) is not part of the sources; the calculator declares the
    properties [result] and [lastChange]. *)
Definition propertyKeys : list string := ["result"; "lastChange"].

(** Modelled from the spec: the actions the missing Thing Model declares,
    [add] and [subtract]. *)
Definition actionKeys : list string := ["add"; "subtract"].

(** Modelled from the spec: the event the missing Thing Model declares,
    [update]. *)
Definition eventKeys : list string := ["update"].

Record ThingDescription : Type := mkTD {
  properties : list (string * list Form);
  actions : list (string * list Form);
  events : list (string * list Form)
}.

Definition thingDescription : ThingDescription :=
  {| properties :=
       map (fun key => (key, property_forms formatIdentifiers key)) propertyKeys;
     actions :=
       map (fun key => (key, action_forms formatIdentifiers key)) actionKeys;
     events :=
       map (fun key => (key, event_forms formatIdentifiers key)) eventKeys |}.

(** ** Main server functionality *)

(** *** JavaScript values *)

(** The values that reach the handler: decoded payloads and the two
    variables.  A [Date] is an object: it has an identity ([ref]) besides
    the time it holds. *)
Inductive jsval : Type :=
| JUndefined
| JNull
| JBool (b : bool)
| JNum (x : float)
| JStr (s : string)
| JDate (ref : nat) (time : Z)
| JObject (ref : nat).

(** [typeof v === "number"] *)
Definition typeof_number (v : jsval) : bool :=
  match v with JNum _ => true | _ => false end.

(** [!v]: the falsy values are [undefined], [null], [false], [0], [-0],
    [NaN] and the empty string. *)
Definition js_not (v : jsval) : bool :=
  match v with
  | JUndefined | JNull => true
  | JBool b => negb b
  | JNum x => PrimFloat.eqb x 0%float || PrimFloat.is_nan x
  | JStr s => String.eqb s ""
  | JDate _ _ | JObject _ => false
  end.

(** [a === b]: numbers by IEEE equality, strings by content, objects by
    identity. *)
Definition strict_eq (a b : jsval) : bool :=
  match a, b with
  | JUndefined, JUndefined => true
  | JNull, JNull => true
  | JBool x, JBool y => Bool.eqb x y
  | JNum x, JNum y => PrimFloat.eqb x y
  | JStr x, JStr y => String.eqb x y
  | JDate r _, JDate r' _ => Nat.eqb r r'
  | JObject r, JObject r' => Nat.eqb r r'
  | _, _ => false
  end.

(** The number held by a value that passed the [typeof] test. *)
Definition number_of (v : jsval) : float :=
  match v with JNum x => x | _ => PrimFloat.nan end.

(** [a || b] on two headers that may be absent. *)
Definition header_or (a b : option string) : option string :=
  match a with
  | Some s => if String.eqb s "" then b else a
  | None => b
  end.

(** A header known to be a string (inside the [includes] guard). *)
Definition header_string (h : option string) : string :=
  match h with Some s => s | None => "" end.

(** *** Requests, responses and effects *)

Record Request : Type := mkRequest {
  url : string;
  method : string;
  Accept : option string;
  Content_Type : option string;
  Content_Format : option string;
  Observe : option Z;
  payload : string
}.

(** The accumulator: the variables [result] and [lastChange]. *)
Record State : Type := mkState {
  result : float;
  lastChange : jsval
}.

Definition initialState : State :=
  {| result := 0%float; lastChange := JStr "" |}.

(** The two status members of the response that the handler assigns. *)
Record Response : Type := mkResponse {
  code : option Z;
  statusCode : option Z
}.

Definition freshResponse : Response := {| code := None; statusCode := None |}.

(** What is written on the response: a value in one of the two encodings,
    or the description as JSON text. *)
Inductive Body : Type :=
| JSON_stringify (v : jsval)
| cbor_encode (v : jsval)
| JSON_stringify_TD (td : ThingDescription).

(** Which variable an observation polls: the [result] property, the
    [lastChange] property, or [result] again for the [update] event. *)
Inductive Watched : Type := WatchResult | WatchLastChange | WatchUpdate.

(** The closure handed to [setInterval]: the accept header it captured and
    its [oldResult] / [oldDate] variable. *)
Record Subscription : Type := mkSubscription {
  watched : Watched;
  sub_accept : string;
  old : jsval
}.

Inductive Codec : Type := UseJSON | UseCBOR.

(** The calls the handler makes on its collaborators, in order.  [ResEnd] and
    [ResWrite] record the status members as they are at the call. *)
Inductive Effect : Type :=
| ResSetOption (name : string) (value : string)
| Decode (c : Codec) (data : string)
| ResWrite (r : Response) (b : Body)
| ResEnd (r : Response) (b : option Body)
| SetInterval (s : Subscription).

(** Everything a request can read or change: the accumulator, the number
    of [Date] objects created so far, the response and the effect log. *)
Record World : Type := mkWorld {
  state : State;
  dates : nat;
  res : Response;
  effects : list Effect
}.

(** *** The handler monad: state, with [throw] for a failed decode *)

Inductive Outcome (A : Type) : Type :=
| Returned (a : A) (w : World)
| Thrown (w : World).

Arguments Returned {A} a w.
Arguments Thrown {A} w.

Definition M (A : Type) : Type := World -> Outcome A.

Definition ret {A} (a : A) : M A := fun w => Returned a w.

Definition bind {A B} (m : M A) (k : A -> M B) : M B :=
  fun w => match m w with
           | Returned a w' => k a w'
           | Thrown w' => Thrown w'
           end.

Definition throw {A} : M A := fun w => Thrown w.

Declare Scope handler_scope.
Delimit Scope handler_scope with handler.
Notation "x <- m ;; k" := (bind m (fun x => k))
  (at level 61, m at next level, right associativity) : handler_scope.
Notation "m ;; k" := (bind m (fun _ => k))
  (at level 61, right associativity) : handler_scope.

Definition world_of {A} (o : Outcome A) : World :=
  match o with Returned _ w => w | Thrown w => w end.

Definition log (e : Effect) : M unit :=
  fun w => Returned tt (mkWorld (state w) (dates w) (res w) (effects w ++ [e])).

Definition get_state : M State := fun w => Returned (state w) w.

Definition put_state (s : State) : M unit :=
  fun w => Returned tt (mkWorld s (dates w) (res w) (effects w)).

(** [res.code = n] *)
Definition set_code (n : Z) : M unit :=
  fun w => Returned tt
    (mkWorld (state w) (dates w) (mkResponse (Some n) (statusCode (res w)))
             (effects w)).

(** [res.statusCode = n] *)
Definition set_statusCode (n : Z) : M unit :=
  fun w => Returned tt
    (mkWorld (state w) (dates w) (mkResponse (code (res w)) (Some n))
             (effects w)).

(** [res.end(b)] *)
Definition res_end (b : option Body) : M unit :=
  fun w => log (ResEnd (res w) b) w.

(** [res.setOption(name, value)] *)
Definition res_setOption (name value : string) : M unit :=
  log (ResSetOption name value).

(** [new Date()]: a fresh object holding the current time. *)
Definition new_Date (now : Z) : M jsval :=
  fun w => Returned (JDate (dates w) now)
             (mkWorld (state w) (S (dates w)) (res w) (effects w)).

(** *** Reading the request *)

(** [segments[i]]: [undefined] ([None]) past the end of the array. *)
Definition segment (segments : list string) (i : nat) : option string :=
  nth_error segments i.

(** [segments[i] === s] *)
Definition seg_is (x : option string) (s : string) : bool :=
  match x with Some t => String.eqb t s | None => false end.

(** [!segments[i]]: the segment is missing or empty. *)
Definition seg_missing (x : option string) : bool :=
  match x with Some t => String.eqb t "" | None => true end.

(** [req.headers.Observe === 0] *)
Definition observe_requested (req : Request) : bool :=
  match Observe req with Some z => Z.eqb z 0 | None => false end.

(** The value a subscription polls. *)
Definition live (what : Watched) (st : State) : jsval :=
  match what with
  | WatchLastChange => lastChange st
  | WatchResult | WatchUpdate => JNum (result st)
  end.

(** The two-way choice made wherever a value is sent: JSON text when the
    accept header includes [application/json], CBOR otherwise. *)
Definition encode (acceptHeaders : string) (v : jsval) : Body :=
  if Str.includes acceptHeaders "application/json" then JSON_stringify v
  else cbor_encode v.

Local Open Scope handler_scope.

Section Handler.

(** The decoders of the JSON and CBOR libraries; [None] when they throw. *)
Variable JSON_parse : string -> option jsval.
Variable cbor_decode : string -> option jsval.

Definition decode (reqContentType : string) (data : string) : M jsval :=
  if Str.includes reqContentType "application/json" then
    log (Decode UseJSON data) ;;
    match JSON_parse data with Some v => ret v | None => throw end
  else
    log (Decode UseCBOR data) ;;
    match cbor_decode data with Some v => ret v | None => throw end.

(** The observation branches: remember the current value and start the
    interval; the response stays open.  (The [finish] listener that clears
    the interval is registered here too; it takes no part in what
    follows and is not logged.) *)
Definition observe (what : Watched) (acceptHeaders : string) : M unit :=
  st <- get_state ;;
  log (SetInterval (mkSubscription what acceptHeaders (live what st))).

(** A property endpoint ([result] or [lastChange]). *)
Definition property_endpoint (what : Watched) (req : Request)
    (acceptHeaders : string) : M unit :=
  if observe_requested req then observe what acceptHeaders
  else
    st <- get_state ;;
    res_end (Some (encode acceptHeaders (live what st))).

(** An action endpoint: [f] is [+] for [add] and [-] for [subtract]. *)
Definition action_endpoint (f : float -> float -> float) (req : Request)
    (reqContentType acceptHeaders : string) (now : Z) : M unit :=
  operand <- decode reqContentType (payload req) ;;
  if negb (typeof_number operand) || js_not operand then
    set_code 400 ;; res_end None
  else
    st <- get_state ;;
    put_state (mkState (f (result st) (number_of operand)) (lastChange st)) ;;
    d <- new_Date now ;;
    st <- get_state ;;
    put_state (mkState (result st) d) ;;
    st <- get_state ;;
    res_end (Some (encode acceptHeaders (JNum (result st)))).

Definition route_root (req : Request) (segments : list string) : M unit :=
  if negb (seg_is (segment segments 1) thingName) then
    set_code 404 ;; res_end None
  else if seg_missing (segment segments 2) then
    if String.eqb (method req) "GET" then
      res_end (Some (JSON_stringify_TD thingDescription))
    else
      set_code 405 ;; res_end None
  else ret tt.

Definition route_properties (req : Request) (segments : list string)
    (acceptHeaders : option string) : M unit :=
  if seg_is (segment segments 2) "properties" then
    if String.eqb (method req) "GET" then
      if Str.array_includes supportedContentTypes acceptHeaders then
        res_setOption "Content-Format" (header_string acceptHeaders) ;;
        if seg_is (segment segments 3) "result" then
          property_endpoint WatchResult req (header_string acceptHeaders)
        else if seg_is (segment segments 3) "lastChange" then
          property_endpoint WatchLastChange req (header_string acceptHeaders)
        else
          set_code 404 ;; res_end None
      else
        set_statusCode 406 ;; res_end None
    else
      set_code 405 ;; res_end None
  else ret tt.

Definition route_actions (req : Request) (segments : list string)
    (acceptHeaders reqContentType : option string) (now : Z) : M unit :=
  if seg_is (segment segments 2) "actions" then
    if String.eqb (method req) "POST" then
      if Str.array_includes supportedContentTypes reqContentType then
        if Str.array_includes supportedContentTypes acceptHeaders then
          res_setOption "Content-Format" (header_string acceptHeaders) ;;
          if seg_is (segment segments 3) "add" then
            action_endpoint PrimFloat.add req (header_string reqContentType)
              (header_string acceptHeaders) now
          else if seg_is (segment segments 3) "subtract" then
            action_endpoint PrimFloat.sub req (header_string reqContentType)
              (header_string acceptHeaders) now
          else
            set_code 404 ;; res_end None
        else
          set_code 406 ;; res_end None
      else
        set_code 415 ;; res_end None
    else
      set_code 405 ;; res_end None
  else ret tt.

Definition route_events (req : Request) (segments : list string)
    (acceptHeaders : option string) : M unit :=
  if seg_is (segment segments 2) "events" && String.eqb (method req) "GET" then
    if seg_is (segment segments 3) "update" then
      if observe_requested req then
        if Str.array_includes supportedContentTypes acceptHeaders then
          observe WatchUpdate (header_string acceptHeaders)
        else
          set_statusCode 406 ;; res_end None
      else
        set_code 402 ;; res_end None
    else
      set_code 404 ;; res_end None
  else ret tt.

(** The listener of the server's [request] event.  The four blocks run
    one after the other: none of them returns from the listener. *)
Definition handler (req : Request) (now : Z) : M unit :=
  let segments := Str.split "/" (url req) in
  let acceptHeaders := Accept req in
  let reqContentType := header_or (Content_Type req) (Content_Format req) in
  route_root req segments ;;
  route_properties req segments acceptHeaders ;;
  route_actions req segments acceptHeaders reqContentType now ;;
  route_events req segments acceptHeaders.

(** One request served on a fresh response, from the accumulator [st]
    after [n] dates have been created. *)
Definition handle (req : Request) (now : Z) (st : State) (n : nat)
    : Outcome unit :=
  handler req now (mkWorld st n freshResponse []).

(** The accumulator and the date count across a sequence of requests,
    each with the clock reading at its arrival. *)
Definition serve (sn : State * nat) (rq : Request * Z) : State * nat :=
  let w := world_of (handle (fst rq) (snd rq) (fst sn) (snd sn)) in
  (state w, dates w).

Definition run (history : list (Request * Z)) (sn : State * nat)
    : State * nat :=
  fold_left serve history sn.

End Handler.

(** *** The interval callback *)

(** One run of the callback of a subscription whose response is [r], when
    the accumulator is [st]: the subscription afterwards, the response
    afterwards, and the calls made. *)
Definition tick (s : Subscription) (st : State) (r : Response)
    : Subscription * Response * list Effect :=
  let pre :=
    match watched s with
    | WatchUpdate => [ResSetOption "Content-Format" (sub_accept s)]
    | WatchResult | WatchLastChange => []
    end in
  let current := live (watched s) st in
  if negb (strict_eq (old s) current) then
    let r' := mkResponse (code r) (Some 205%Z) in
    (mkSubscription (watched s) (sub_accept s) current, r',
     pre ++ [ResWrite r' (encode (sub_accept s) current)])
  else (s, r, pre).

(** The notifications among the calls of a tick. *)
Definition writes (fx : list Effect) : list Body :=
  flat_map (fun e => match e with ResWrite _ b => [b] | _ => [] end) fx.

(** The responses sent: the status members and body of every [ResEnd]. *)
Definition ends (fx : list Effect) : list (Response * option Body) :=
  flat_map (fun e => match e with ResEnd r b => [(r, b)] | _ => [] end) fx.

(** The subscriptions started. *)
Definition intervals (fx : list Effect) : list Subscription :=
  flat_map (fun e => match e with SetInterval s => [s] | _ => [] end) fx.

(** The decoder calls made. *)
Definition decodes (fx : list Effect) : list (Codec * string) :=
  flat_map (fun e => match e with Decode c d => [(c, d)] | _ => [] end) fx.

(** ** Vocabulary of the statements *)

(** The [i]-th element of [req.url.split('/')]. *)
Definition path (req : Request) (i : nat) : option string :=
  segment (Str.split "/" (url req)) i.

(** [reqContentType] of the listener. *)
Definition declared_type (req : Request) : option string :=
  header_or (Content_Type req) (Content_Format req).

Definition registered (h : option string) : bool :=
  Str.array_includes supportedContentTypes h.

(** A request on [/<thingName>/<group>/<name>]. *)
Definition addresses (group name : string) (req : Request) : Prop :=
  path req 1 = Some thingName /\
  path req 2 = Some group /\
  path req 3 = Some name.

(** A request on [/<thingName>/<group>/...], whatever follows. *)
Definition addresses_group (group : string) (req : Request) : Prop :=
  path req 1 = Some thingName /\ path req 2 = Some group.


(** The response sent first, if any: status members and body. *)
Definition first_response (o : Outcome unit) : option (Response * option Body) :=
  hd_error (ends (effects (world_of o))).

(** [a > b] on two values of [lastChange] that are both dates. *)
Definition later_than (a b : jsval) : bool :=
  match a, b with
  | JDate _ t, JDate _ t' => Z.ltb t' t
  | _, _ => false
  end.

(** A computation that leaves the accumulator and the date count alone. *)
Definition preserves {A} (m : M A) : Prop :=
  forall w, state (world_of (m w)) = state w /\ dates (world_of (m w)) = dates w.

(** A computation that only appends to the effect log. *)
Definition extends {A} (m : M A) : Prop :=
  forall w, exists fx, effects (world_of (m w)) = effects w ++ fx.

(** The decoder the listener picks for the request body. *)
Definition codec_of (req : Request) : Codec :=
  if Str.includes (header_string (declared_type req)) "application/json"
  then UseJSON else UseCBOR.

(** The value the picked decoder returns for the body; [None] when it
    throws. *)
Definition decoded (JSON_parse cbor_decode : string -> option jsval)
    (req : Request) : option jsval :=
  match codec_of req with
  | UseJSON => JSON_parse (payload req)
  | UseCBOR => cbor_decode (payload req)
  end.

(** A POST on [/<thingName>/actions/<name>] whose body type and accept
    header are both registered. *)
Definition action_call (name : string) (req : Request) : Prop :=
  addresses "actions" name req /\
  method req = "POST" /\
  registered (declared_type req) = true /\
  registered (Accept req) = true.


(** The response that only carries the status [c], and the outcome of a
    request that was refused with it before anything else was done. *)
Definition status (c : Z) : Response := mkResponse (Some c) None.

Definition refused (c : Z) (st : State) (n : nat) : Outcome unit :=
  Returned tt (mkWorld st n (status c) [ResEnd (status c) None]).

(** A computation that creates a date whenever it changes the accumulator:
    the date count never decreases, and the accumulator is the same when
    the count is. *)
Definition counts_mutations {A} (m : M A) : Prop :=
  forall w,
    dates w <= dates (world_of (m w)) /\
    (dates (world_of (m w)) = dates w -> state (world_of (m w)) = state w).

(** Concrete requests and toy decoders used to run the model. *)
Module Demo.

Definition json : option string := Some "application/json".
Definition cbor : option string := Some "application/cbor".
Definition plain : option string := Some "text/plain".

(** A decoder that knows a few JSON texts and throws on the rest. *)
Definition parse (data : string) : option jsval :=
  if String.eqb data "10" then Some (JNum 10%float)
  else if String.eqb data "5" then Some (JNum 5%float)
  else if String.eqb data "0" then Some (JNum 0%float)
  else if String.eqb data "null" then Some JNull
  else None.

Definition root : string := "/coap-calculator-content-negotiation".

Definition get (target : string) (accept : option string)
    (observe : option Z) : Request :=
  mkRequest target "GET" accept None None observe "".

Definition post (target : string) (accept format : option string)
    (data : string) : Request :=
  mkRequest target "POST" accept None format None data.

Definition add10 : Request := post (root ++ "/actions/add") cbor json "10".
Definition subtract5 : Request :=
  post (root ++ "/actions/subtract") json cbor "5".
Definition add0 : Request := post (root ++ "/actions/add") json json "0".

Definition handle := handle parse parse.
Definition run := run parse parse.

End Demo.

(** ** Vocabulary of the further statements *)

(** The value [v] in the representation a registered type [a] names: JSON
    text for [application/json], CBOR data for [application/cbor]. *)
Definition in_representation (a : string) (v : jsval) : Body :=
  if String.eqb a "application/json" then JSON_stringify v else cbor_encode v.

(** The request with another [Content-Format] header. *)
Definition with_Content_Format (cf : option string) (req : Request) : Request :=
  mkRequest (url req) (method req) (Accept req) (Content_Type req) cf
    (Observe req) (payload req).

(** The operator of the action a path names. *)
Definition operator_of (req : Request) : float -> float -> float :=
  if seg_is (path req 3) "add" then PrimFloat.add else PrimFloat.sub.

(** The tests that lead to the two assignments of the actions block, with
    the operand [x] they read.  The first path segment is not among them. *)
Definition reaches_assignment (JSON_parse cbor_decode : string -> option jsval)
    (req : Request) (x : float) : Prop :=
  path req 2 = Some "actions" /\
  (path req 3 = Some "add" \/ path req 3 = Some "subtract") /\
  method req = "POST" /\
  registered (declared_type req) = true /\
  registered (Accept req) = true /\
  decoded JSON_parse cbor_decode req = Some (JNum x) /\
  js_not (JNum x) = false.

(** A status that was set through [res.statusCode] only. *)
Definition status_only (c : Z) : Response := mkResponse None (Some c).

(** The interval callback run once per state of the list, in order: the
    subscription and response afterwards, and all the calls made. *)
Fixpoint ticks (s : Subscription) (r : Response) (states : list State)
    : Subscription * Response * list Effect :=
  match states with
  | [] => (s, r, [])
  | st :: rest =>
      let '(s1, r1, fx1) := tick s st r in
      let '(s2, r2, fx2) := ticks s1 r1 rest in
      (s2, r2, fx1 ++ fx2)
  end.

(** Every date held by [lastChange] was created before the count [n]. *)
Definition dates_below (sn : State * nat) : Prop :=
  match lastChange (fst sn) with
  | JDate r _ => r < snd sn
  | _ => True
  end.

(** A computation that keeps the dates of [lastChange] below the count. *)
Definition keeps_below {A} (m : M A) : Prop :=
  forall w,
    dates_below (state w, dates w) ->
    dates_below (state (world_of (m w)), dates (world_of (m w))).

(** A form whose content types and codes are entries of the registry, and
    whose [cov:accept] is the code of its response type. *)
Definition uses_registry (fi : list (string * Z)) (f : Form) : Prop :=
  In (contentType f, cov_contentFormat f) fi /\
  In (resp_contentType (response f), resp_contentFormat (response f)) fi /\
  cov_accept f = resp_contentFormat (response f).

(** The form takes a body of type [a] and answers with type [b]. *)
Definition offers (a b : string) (f : Form) : bool :=
  String.eqb (contentType f) a && String.eqb (resp_contentType (response f)) b.

(** ** The test client

    [content-negotiation-http-client.js]: five helpers that send one
    request each and decode the response by its content type, and
    [runCalculator], which calls them in a fixed order. *)

Module Client.

Definition url : string :=
  "http://localhost:3000/http-express-calculator-content-negotiation".
Definition resultEndPoint : string := "/properties/result".
Definition lastChangeEndPoint : string := "/properties/lastChange".
Definition additionEndPoint : string := "/actions/add".
Definition subtractionEndPoint : string := "/actions/subtract".

(** [inputNumber]: the number as JSON text, as CBOR data, or as it is. *)
Inductive Input : Type :=
| Stringified (v : jsval)
| CborEncoded (v : jsval)
| Unencoded (v : jsval).

(** The arguments of a [fetch] call. *)
Record HttpRequest : Type := mkHttpRequest {
  target : string;
  verb : string;
  accept : string;
  content_type : option string;
  body : option Input
}.

(** What the helpers read of a response: [res.ok], the [content-type]
    header ([None] when [headers.get] returns [null]) and the body. *)
Record HttpResponse : Type := mkHttpResponse {
  ok : bool;
  res_content_type : option string;
  data : string
}.

(** The ways a helper's promise is rejected. *)
Inductive Failure : Type :=
| FetchError
| TypeError
| DecodeError
| UnsupportedContentType (t : string)
| ErrorText (t : string).

(** A line of the console: a label with a value, or a caught error. *)
Inductive Logged : Type :=
| LogValue (label : string) (v : jsval)
| LogError (e : Failure).

Section Helpers.

(** The network: [fetch] answers a request, or fails, and the other side
    may change. *)
Variable Net : Type.
Variable fetch : HttpRequest -> Net -> option HttpResponse * Net.

(** [res.json()] and [cbor.decode]; [None] when they throw. *)
Variable JSON_parse : string -> option jsval.
Variable cbor_decode : string -> option jsval.

(** What a helper can change: the other side, the requests sent so far
    and the console. *)
Record Session : Type := mkSession {
  net : Net;
  sent : list HttpRequest;
  console : list Logged
}.

Definition C (A : Type) : Type := Session -> (A + Failure) * Session.

Definition pure {A} (a : A) : C A := fun s => (inl a, s).

Definition reject {A} (e : Failure) : C A := fun s => (inr e, s).

Definition andThen {A B} (m : C A) (k : A -> C B) : C B :=
  fun s => match m s with
           | (inl a, s') => k a s'
           | (inr e, s') => (inr e, s')
           end.

(** [await fetch(...)] *)
Definition do_fetch (req : HttpRequest) : C HttpResponse :=
  fun s =>
    let (answer, net') := fetch req (net s) in
    (match answer with Some res => inl res | None => inr FetchError end,
     mkSession net' (sent s ++ [req]) (console s)).

(** [console.log(label, v)] *)
Definition console_log (l : Logged) : C unit :=
  fun s => (inl tt, mkSession (net s) (sent s) (console s ++ [l])).

(** The header for an accept or content type argument: the two shortcuts
    are expanded, anything else is sent as it is. *)
Definition header_for (type : string) : string :=
  if String.eqb type "json" then "application/json"
  else if String.eqb type "cbor" then "application/cbor"
  else type.

(** The decoding that ends every helper. *)
Definition decode_response (res : HttpResponse) : C jsval :=
  match res_content_type res with
  | None => reject TypeError
  | Some contentType =>
      if Str.includes contentType "application/json" then
        match JSON_parse (data res) with
        | Some v => pure v
        | None => reject DecodeError
        end
      else if Str.includes contentType "application/cbor" then
        match cbor_decode (data res) with
        | Some v => pure v
        | None => reject DecodeError
        end
      else reject (UnsupportedContentType contentType)
  end.

Definition get_request (endPoint acceptType : string) : HttpRequest :=
  mkHttpRequest (url ++ endPoint) "GET" (header_for acceptType) None None.

(** The body of [getFullTD], [getCurrentResult] and [getLatestChange],
    which differ in the end point only. *)
Definition get_helper (endPoint acceptType : string) : C jsval :=
  andThen (do_fetch (get_request endPoint acceptType)) decode_response.

Definition getFullTD : string -> C jsval := get_helper "".
Definition getCurrentResult : string -> C jsval := get_helper resultEndPoint.
Definition getLatestChange : string -> C jsval := get_helper lastChangeEndPoint.

Definition post_request (endPoint : string) (number : jsval)
    (contentType acceptType : string) : HttpRequest :=
  let inputNumber :=
    if String.eqb contentType "json" then Stringified number
    else if String.eqb contentType "cbor" then CborEncoded number
    else Unencoded number in
  mkHttpRequest (url ++ endPoint) "POST" (header_for acceptType)
    (Some (header_for contentType)) (Some inputNumber).

(** The body of [addNumber] and [subtractNumber]. *)
Definition post_helper (endPoint : string) (number : jsval)
    (contentType acceptType : string) : C jsval :=
  andThen (do_fetch (post_request endPoint number contentType acceptType))
    (fun res =>
       if ok res then decode_response res
       else reject (ErrorText (data res))).

Definition addNumber : jsval -> string -> string -> C jsval :=
  post_helper additionEndPoint.
Definition subtractNumber : jsval -> string -> string -> C jsval :=
  post_helper subtractionEndPoint.

(** [console.log(label, await call)] *)
Definition logged (label : string) (call : C jsval) : C unit :=
  andThen call (fun v => console_log (LogValue label v)).

(** The [try] block of [runCalculator]. *)
Definition calculation : C unit :=
  andThen (logged ("Full thing: " ++ String "010"%char "")
             (getFullTD "cbor")) (fun _ =>
  andThen (logged "Current number: " (getCurrentResult "cbor")) (fun _ =>
  andThen (logged "Last Change: " (getLatestChange "cbor")) (fun _ =>
  andThen (logged "Result of the addition is: "
             (addNumber (JNum 10%float) "json" "cbor")) (fun _ =>
  andThen (logged "Result of the subtraction is: "
             (subtractNumber (JNum 5%float) "cbor" "json")) (fun _ =>
  andThen (logged "Current number: " (getCurrentResult "json")) (fun _ =>
  logged "Last Change: " (getLatestChange "cbor"))))))).

(** [runCalculator]: the block, with the [catch] that logs the error. *)
Definition runCalculator (s : Session) : Session :=
  match calculation s with
  | (inl _, s') => s'
  | (inr e, s') => mkSession (net s') (sent s') (console s' ++ [LogError e])
  end.

(** The requests of [runCalculator], in the order it sends them. *)
Definition script : list HttpRequest :=
  [get_request "" "cbor";
   get_request resultEndPoint "cbor";
   get_request lastChangeEndPoint "cbor";
   post_request additionEndPoint (JNum 10%float) "json" "cbor";
   post_request subtractionEndPoint (JNum 5%float) "cbor" "json";
   get_request resultEndPoint "json";
   get_request lastChangeEndPoint "cbor"].

(** A console line that reports a value. *)
Definition is_value (l : Logged) : Prop :=
  match l with LogValue _ _ => True | LogError _ => False end.

(** A computation that works through the requests [reqs] in order, logs
    one value per answered request and stops at the first failure: when it
    succeeds all of [reqs] were sent; when it fails after [k] requests,
    those are the first [k] and [k - 1] values were logged. *)
Definition works_through (reqs : list HttpRequest) (m : C unit) : Prop :=
  forall s,
    match m s with
    | (inl _, s1) =>
        sent s1 = sent s ++ reqs /\
        exists values,
          console s1 = console s ++ values /\
          List.length values = List.length reqs /\ Forall is_value values
    | (inr _, s1) =>
        exists k values,
          1 <= k <= List.length reqs /\
          sent s1 = sent s ++ firstn k reqs /\
          console s1 = console s ++ values /\
          List.length values = k - 1 /\ Forall is_value values
    end.

End Helpers.

End Client.

(** More inputs to run the model on. *)
Module Sample.

(** A registry with a third content type. *)
Definition threeTypes : list (string * Z) :=
  [("application/json", 50%Z); ("application/cbor", 60%Z); ("text/plain", 0%Z)].

(** A valid [add] sent to another thing name. *)
Definition strayAdd : Request :=
  Demo.post "/other/actions/add" Demo.cbor Demo.json "10".

Definition readResult : Request :=
  Demo.get (Demo.root ++ "/properties/result") Demo.cbor None.

Definition deleteResult : Request :=
  mkRequest (Demo.root ++ "/properties/result") "DELETE" Demo.json None None
    None "".

Definition postToEvent : Request :=
  Demo.post (Demo.root ++ "/events/update") Demo.json Demo.json "10".

Definition readUnknownAsPlain : Request :=
  Demo.get (Demo.root ++ "/properties/total") Demo.plain None.

Definition observeResult : Request :=
  Demo.get (Demo.root ++ "/properties/result") Demo.json (Some 0%Z).

(** An [add] that declares its body with [Content-Type]. *)
Definition typedAdd : Request :=
  mkRequest (Demo.root ++ "/actions/add") "POST" Demo.json Demo.json None
    None "10".

(** A decoder that reads the JSON text [1e999] as JavaScript does, as
    infinity, and throws on everything else. *)
Definition parseHuge (data : string) : option jsval :=
  if String.eqb data "1e999" then Some (JNum infinity) else None.

Definition addHuge : Request :=
  Demo.post (Demo.root ++ "/actions/add") Demo.json Demo.json "1e999".

Definition subtractHuge : Request :=
  Demo.post (Demo.root ++ "/actions/subtract") Demo.json Demo.json "1e999".



Definition readLastChange (acceptHeader : option string) : Request :=
  Demo.get (Demo.root ++ "/properties/lastChange") acceptHeader None.

(** An [add] without a body. *)
Definition emptyAdd : Request :=
  Demo.post (Demo.root ++ "/actions/add") Demo.json Demo.json "".

(** A subscription to [result] that remembers 0 and sends CBOR. *)
Definition watcher : Subscription :=
  mkSubscription WatchResult "application/cbor" (JNum 0%float).

(** The other side of the client answering every request with the status
    406 and the JSON text [10]. *)
Definition refusing (req : Client.HttpRequest) (n : nat)
    : option Client.HttpResponse * nat :=
  (Some (Client.mkHttpResponse false (Some "application/json") "10"), S n).

End Sample.

(** ** Proof automation *)

(** Unfold the primitive operations of the handler monad. *)
Ltac run_monad :=
  unfold bind, ret, throw, res_end, res_setOption, log, set_code,
    set_statusCode, get_state, put_state, new_Date; simpl.

Ltac crunch :=
  repeat (run_monad;
          match goal with
          | |- context [if ?b then _ else _] => destruct b eqn:?
          | |- context [match ?x with Some _ => _ | None => _ end] => destruct x eqn:?
          end);
  run_monad.

(** Evaluate a closed run of the model. *)
Ltac run_demo := repeat split; vm_compute; try reflexivity; try discriminate.

(** Discharge the tests of a concrete call. *)
Ltac demo_call :=
  repeat split; try (left; reflexivity); try (right; reflexivity);
  vm_compute; try reflexivity; try discriminate.

(** ** The form expansion *)

Lemma registry_keys : map fst formatIdentifiers = supportedContentTypes.
Proof. reflexivity. Qed.

(** *** Any registry *)

Lemma fold_left_push {A B} (step : list B -> A -> list B) (g : A -> list B)
    (l : list A) (init : list B) :
  (forall acc x, step acc x = acc ++ g x) ->
  fold_left step l init = init ++ flat_map g l.
Proof.
  intros E. revert init.
  induction l as [|x l IH]; intros init; simpl.
  - now rewrite app_nil_r.
  - rewrite IH, E. now rewrite <- app_assoc.
Qed.

Lemma flat_map_map {A B C} (f : B -> list C) (g : A -> B) (l : list A) :
  flat_map f (map g l) = flat_map (fun x => f (g x)) l.
Proof. induction l as [|x l IH]; simpl; [reflexivity|now rewrite IH]. Qed.

Lemma flat_map_ext_in {A B} (f g : A -> list B) (l : list A) :
  (forall x, In x l -> f x = g x) -> flat_map f l = flat_map g l.
Proof.
  induction l as [|x l IH]; intros E; simpl; [reflexivity|].
  rewrite E by (now left). rewrite IH; [reflexivity|].
  intros y Hy. apply E. now right.
Qed.

Lemma Permutation_flat_map_in {A B} (f g : A -> list B) (l : list A) :
  (forall x, In x l -> Permutation (f x) (g x)) ->
  Permutation (flat_map f l) (flat_map g l).
Proof.
  induction l as [|x l IH]; intros E; simpl; [constructor|].
  apply Permutation_app; [apply E; now left|].
  apply IH. intros y Hy. apply E. now right.
Qed.

Lemma NoDup_list_prod {A B} (l : list A) (l' : list B) :
  NoDup l -> NoDup l' -> NoDup (list_prod l l').
Proof.
  intros Hl Hl'. induction Hl as [|a l Ha Hl IH]; simpl; [constructor|].
  apply NoDup_app. repeat split.
  - clear -Hl'. induction Hl' as [|b l' Hb Hl' IH']; simpl; constructor; auto.
    rewrite in_map_iff. intros [b' [E Hb']]. inversion E; subst. contradiction.
  - exact IH.
  - intros [x y] H1 H2. apply in_map_iff in H1. destruct H1 as [b [E _]].
    inversion E; subst. apply in_prod_iff in H2. now destruct H2.
Qed.

Section AnyRegistry.
Local Opaque String.eqb.
Variable fi : list (string * Z).
Hypothesis keys_distinct : NoDup (map fst fi).
Hypothesis codes_distinct : NoDup (map snd fi).
Hypothesis default_registered : In ("application/json", 50%Z) fi.

Lemma accept_variants_push (f : Form) (forms : list Form) :
  accept_variants fi f forms = forms ++ flat_map (accept_variant f) fi.
Proof.
  apply fold_left_push. intros acc [identifier code].
  unfold accept_variant. simpl.
  destruct (negb (cov_accept f =? code)%Z); [reflexivity|now rewrite app_nil_r].
Qed.

Lemma action_forms_push (key : string) :
  action_forms fi key = base_action_form key :: flat_map (action_row fi key) fi.
Proof.
  unfold action_forms.
  change (base_action_form key :: flat_map (action_row fi key) fi)
    with ([base_action_form key] ++ flat_map (action_row fi key) fi).
  apply fold_left_push. intros acc [identifier code].
  unfold action_row. simpl.
  destruct (negb ("application/json" =? identifier)).
  - rewrite accept_variants_push. now rewrite <- app_assoc.
  - apply accept_variants_push.
Qed.

(** The pairs a row of variants contributes: every identifier whose
    code differs from [code], paired with [identifier]. *)
Lemma accept_variant_pairs (f : Form) (l : list (string * Z)) :
  map form_pair (flat_map (accept_variant f) l) =
  flat_map (fun e => if negb (Z.eqb (cov_accept f) (snd e))
                     then [(contentType f, fst e)] else []) l.
Proof.
  induction l as [|e l IH]; simpl; [reflexivity|].
  rewrite map_app, IH. unfold accept_variant.
  destruct (negb (cov_accept f =? snd e)%Z); reflexivity.
Qed.

(** With distinct codes, the identity pair and the variants of an entry
    make up its whole row of the cross product. *)
Lemma row_complete (identifier : string) (code : Z) (l : list (string * Z)) :
  NoDup (map snd l) ->
  In (identifier, code) l ->
  Permutation
    ((identifier, identifier) ::
     flat_map (fun e => if negb (Z.eqb code (snd e))
                        then [(identifier, fst e)] else []) l)
    (map (pair identifier) (map fst l)).
Proof.
  induction l as [|e l IH]; intros N H; [contradiction|].
  simpl in N. inversion N as [|? ? Ne Nl]; subst.
  destruct H as [H|H].
  - subst e. simpl. rewrite Z.eqb_refl. simpl. apply perm_skip.
    clear IH N Nl. induction l as [|e l IH]; simpl; [constructor|].
    simpl in Ne.
    destruct (Z.eqb_spec code (snd e)) as [E|E]; [exfalso; auto|].
    simpl. apply perm_skip. apply IH. auto.
  - assert (E : code <> snd e).
    { intros ->. apply Ne. now apply (in_map snd) in H. }
    simpl. apply Z.eqb_neq in E. rewrite E. simpl.
    rewrite perm_swap. apply perm_skip. now apply IH.
Qed.

(** The row of an entry, identity pair first. *)
Lemma action_row_pairs (key : string) (e : string * Z) :
  In e fi ->
  (fst e, fst e) ::
  flat_map (fun e' => if negb (Z.eqb (snd e) (snd e'))
                      then [(fst e, fst e')] else []) fi =
  if String.eqb "application/json" (fst e)
  then ("application/json", "application/json") ::
       map form_pair (action_row fi key e)
  else map form_pair (action_row fi key e).
Proof.
  intros H. unfold action_row.
  change (contentType (base_action_form key)) with "application/json".
  destruct (String.eqb_spec "application/json" (fst e)) as [E|E];
    cbv zeta; simpl negb; cbv iota;
    [|rewrite map_cons]; rewrite accept_variant_pairs.
  - assert (C : snd e = 50%Z).
    { destruct e as [i c]. simpl in *. subst i.
      destruct (Z.eq_dec c 50) as [|D]; [assumption|exfalso].
      clear codes_distinct.
      induction fi as [|x l IH]; [contradiction|].
      simpl in keys_distinct. inversion keys_distinct as [|? ? Nx Nl]; subst.
      destruct H as [H|H]; destruct default_registered as [H'|H'].
      - congruence.
      - subst x. apply Nx. now apply (in_map fst) in H'.
      - subst x. apply Nx. now apply (in_map fst) in H.
      - now apply IH. }
    rewrite <- E, C. reflexivity.
  - reflexivity.
Qed.

Lemma map_flat_map {A B C} (f : B -> C) (g : A -> list B) (l : list A) :
  map f (flat_map g l) = flat_map (fun x => map f (g x)) l.
Proof.
  induction l as [|x l IH]; simpl; [reflexivity|now rewrite map_app, IH].
Qed.

(** Moving the first form's pair into the row of the default entry. *)
Lemma default_pair_joins_its_row {A} (d : A) (P R : string * Z -> list A)
    (l : list (string * Z)) :
  NoDup (map fst l) ->
  In ("application/json", 50%Z) l ->
  (forall e, In e l ->
     R e = if String.eqb "application/json" (fst e) then d :: P e else P e) ->
  Permutation (d :: flat_map P l) (flat_map R l).
Proof.
  induction l as [|e l IH]; intros N H E; [contradiction|].
  simpl in N. inversion N as [|? ? Ne Nl]; subst. simpl.
  pose proof (E e (or_introl eq_refl)) as Ee.
  destruct H as [H|H].
  - subst e. simpl in Ee. rewrite String.eqb_refl in Ee. rewrite Ee. simpl.
    apply perm_skip, Permutation_app_head.
    replace (flat_map P l) with (flat_map R l); [reflexivity|].
    apply flat_map_ext_in. intros x Hx. rewrite (E x (or_intror Hx)).
    destruct (String.eqb_spec "application/json" (fst x)) as [X|X];
      [|reflexivity].
    exfalso. apply Ne. simpl. rewrite X. now apply in_map.
  - assert (X : "application/json" <> fst e).
    { intros X. apply Ne. rewrite <- X. now apply (in_map fst) in H. }
    apply String.eqb_neq in X. rewrite X in Ee. rewrite Ee.
    rewrite Permutation_middle. apply Permutation_app_head.
    apply IH; auto. intros x Hx. apply E. now right.
Qed.

(** For any registry with distinct identifiers and distinct codes that
    contains the default entry, the pairs of an action's forms are the
    cross product of the identifiers, each once, and there are
    [n + (n - 1) * n] forms. *)
Lemma action_forms_cover_any_registry (key : string) :
  let forms := action_forms fi key in
  let pairs := map form_pair forms in
  let n := List.length (map fst fi) in
  Permutation pairs (list_prod (map fst fi) (map fst fi))
  /\ NoDup pairs
  /\ List.length forms = n + (n - 1) * n.
Proof.
  cbv zeta.
  assert (P : Permutation (map form_pair (action_forms fi key))
                (list_prod (map fst fi) (map fst fi))).
  { rewrite action_forms_push, map_cons, map_flat_map.
    change (form_pair (base_action_form key))
      with ("application/json", "application/json").
    rewrite (default_pair_joins_its_row _ _
               (fun e => (fst e, fst e) ::
                  flat_map (fun e' => if negb (Z.eqb (snd e) (snd e'))
                                      then [(fst e, fst e')] else []) fi)
               fi keys_distinct default_registered
               (action_row_pairs key)).
    rewrite list_prod_as_flat_map, flat_map_map.
    apply Permutation_flat_map_in. intros [identifier code] H.
    now apply row_complete. }
  split; [exact P|]. split.
  - apply (Permutation_NoDup (Permutation_sym P)).
    now apply NoDup_list_prod.
  - rewrite <- (length_map form_pair), (Permutation_length P), length_prod.
    destruct (List.length (map fst fi)) as [|m] eqn:L.
    + destruct fi; [contradiction|discriminate].
    + simpl. rewrite Nat.sub_0_r. lia.
Qed.

(** Entries other than the default one: all but one of them. *)
Lemma other_entries_count {B} (g : string * Z -> list B) (k : nat)
    (l : list (string * Z)) :
  (forall e, List.length (g e) = k) ->
  NoDup (map fst l) ->
  In "application/json" (map fst l) ->
  List.length
    (flat_map (fun e => if negb (String.eqb "application/json" (fst e))
                        then g e else []) l) + k
  = k * List.length l.
Proof.
  intros G. induction l as [|e l IH]; intros N H; [contradiction|].
  simpl in N. inversion N as [|? ? Ne Nl]; subst.
  simpl flat_map. rewrite length_app. simpl List.length.
  destruct H as [H|H].
  - simpl in H. rewrite H, String.eqb_refl. simpl.
    replace (flat_map _ l) with (flat_map g l).
    + rewrite length_flat_map.
      rewrite (map_ext _ (fun _ => k)) by (intros; apply G).
      clear. induction l as [|x l IH]; simpl; lia.
    + apply flat_map_ext_in. intros x Hx.
      destruct (String.eqb_spec "application/json" (fst x)) as [X|X];
        [|reflexivity].
      exfalso. apply Ne. rewrite H, X. now apply in_map.
  - assert (X : "application/json" <> fst e) by (intros X; now rewrite <- X in Ne).
    apply String.eqb_neq in X. rewrite X. simpl negb. cbv iota.
    rewrite G. specialize (IH Nl H). lia.
Qed.

(** For any such registry a property has two forms per identifier and an
    event has one. *)
Lemma property_forms_count_any_registry (key : string) :
  List.length (property_forms fi key) = 2 * List.length (map fst fi).
Proof.
  unfold property_forms.
  rewrite (fold_left_push _
             (fun e => if negb (String.eqb "application/json" (fst e))
                       then [set_format (fst e) (snd e)
                               (set_op (OpString "readproperty")
                                  (set_method "GET"
                                     (set_href ("properties/" ++ key) defaultForm)));
                             set_subprotocol "cov:observe"
                               (set_op observe_ops
                                  (set_format (fst e) (snd e)
                                     (set_op (OpString "readproperty")
                                        (set_method "GET"
                                           (set_href ("properties/" ++ key)
                                              defaultForm)))))]
                       else [])).
  - rewrite length_app, length_map.
    pose proof (other_entries_count
                  (fun e => [set_format (fst e) (snd e)
                               (set_op (OpString "readproperty")
                                  (set_method "GET"
                                     (set_href ("properties/" ++ key) defaultForm)));
                             set_subprotocol "cov:observe"
                               (set_op observe_ops
                                  (set_format (fst e) (snd e)
                                     (set_op (OpString "readproperty")
                                        (set_method "GET"
                                           (set_href ("properties/" ++ key)
                                              defaultForm)))))])
                  2 fi (fun _ => eq_refl) keys_distinct
                  (in_map fst _ _ default_registered)) as C.
    simpl List.length at 1. lia.
  - intros acc [identifier code]. simpl.
    destruct (negb ("application/json" =? identifier));
      [reflexivity|now rewrite app_nil_r].
Qed.

Lemma event_forms_count_any_registry (key : string) :
  List.length (event_forms fi key) = List.length (map fst fi).
Proof.
  unfold event_forms.
  rewrite (fold_left_push _
             (fun e => if negb (String.eqb "application/json" (fst e))
                       then [set_format (fst e) (snd e)
                               (set_subprotocol "cov:observe"
                                  (set_op subscribe_ops
                                     (set_method "GET"
                                        (set_href ("events/" ++ key) defaultForm))))]
                       else [])).
  - rewrite length_app, length_map.
    pose proof (other_entries_count
                  (fun e => [set_format (fst e) (snd e)
                               (set_subprotocol "cov:observe"
                                  (set_op subscribe_ops
                                     (set_method "GET"
                                        (set_href ("events/" ++ key) defaultForm))))])
                  1 fi (fun _ => eq_refl) keys_distinct
                  (in_map fst _ _ default_registered)) as C.
    simpl List.length at 1. lia.
  - intros acc [identifier code]. simpl.
    destruct (negb ("application/json" =? identifier));
      [reflexivity|now rewrite app_nil_r].
Qed.
End AnyRegistry.


(** *** The registered content types *)

(** The pairs of an action's forms, in the order the loops push them. *)
Lemma action_pairs (key : string) :
  map form_pair (action_forms formatIdentifiers key) =
  [("application/json", "application/json");
   ("application/json", "application/cbor");
   ("application/cbor", "application/cbor");
   ("application/cbor", "application/json")].
Proof. reflexivity. Qed.

(** C1: for every action, the (request, response) content-type pairs of
    its forms are exactly the cross product of the registered content
    types, each pair once; there are [n + (n - 1) * n] forms, which is 4
    for the two registered content types. *)
Theorem C1_action_forms_cross_product (key : string) :
  let forms := action_forms formatIdentifiers key in
  let pairs := map form_pair forms in
  let n := List.length supportedContentTypes in
  Permutation pairs (list_prod supportedContentTypes supportedContentTypes)
  /\ NoDup pairs
  /\ List.length forms = n + (n - 1) * n
  /\ List.length forms = 4.
Proof.
  cbv zeta. rewrite <- registry_keys.
  destruct (action_forms_cover_any_registry formatIdentifiers) with (key := key)
    as [P [N L]].
  - repeat constructor; simpl; intuition discriminate.
  - repeat constructor; simpl; intuition discriminate.
  - now left.
  - repeat split; assumption || reflexivity.
Qed.

(** The content type and kind (observe or not) of each form of a property,
    in order. *)
Lemma property_form_kinds (key : string) :
  map (fun f => (contentType f, is_observe_form f))
      (property_forms formatIdentifiers key) =
  [("application/json", false); ("application/json", true);
   ("application/cbor", false); ("application/cbor", true)].
Proof. reflexivity. Qed.

Lemma event_form_kinds (key : string) :
  map (fun f => (contentType f, is_observe_form f))
      (event_forms formatIdentifiers key) =
  [("application/json", true); ("application/cbor", true)].
Proof. reflexivity. Qed.



(** ** The request handler *)

(** *** Monad and segment facts *)

(** The registered types are the two of [supportedContentTypes]. *)
Lemma registered_cases (h : option string) :
  registered h = true ->
  h = Some "application/json" \/ h = Some "application/cbor".
Proof.
  destruct h as [a|]; [|discriminate]. unfold registered. simpl.
  rewrite orb_false_r. intros H. apply orb_true_iff in H.
  destruct H as [H|H]; apply String.eqb_eq in H; subst; auto.
Qed.

(** On a registered type the substring test of [encode] picks the
    representation the type names. *)
Lemma encode_registered (h : option string) (v : jsval) :
  registered h = true ->
  encode (header_string h) v = in_representation (header_string h) v.
Proof.
  intros R. destruct (registered_cases h R) as [E|E]; rewrite E; reflexivity.
Qed.

Lemma bind_ret_l {A B} (a : A) (k : A -> M B) (w : World) :
  bind (ret a) k w = k a w.
Proof. reflexivity. Qed.

Lemma bind_ret_r (m : M unit) (w : World) :
  bind m (fun _ => ret tt) w = m w.
Proof. unfold bind. destruct (m w) as [[] w'|w']; reflexivity. Qed.

Lemma seg_is_eq (x : option string) (s : string) :
  seg_is x s = true <-> x = Some s.
Proof.
  destruct x as [t|]; simpl; split; intros H; try discriminate.
  - apply String.eqb_eq in H. now subst.
  - inversion H. apply String.eqb_refl.
Qed.

Lemma seg_is_neq (x : option string) (s : string) :
  seg_is x s = false <-> x <> Some s.
Proof.
  rewrite <- seg_is_eq. destruct (seg_is x s); split; congruence.
Qed.

Section Listener.
Variable JSON_parse : string -> option jsval.
Variable cbor_decode : string -> option jsval.

(** A request below [/<thingName>/actions] runs the actions block only. *)
Lemma handle_actions (req : Request) (now : Z) (st : State) (n : nat) :
  addresses_group "actions" req ->
  handle JSON_parse cbor_decode req now st n =
  route_actions JSON_parse cbor_decode req (Str.split "/" (url req))
    (Accept req) (declared_type req) now (mkWorld st n freshResponse []).
Proof.
  intros [H1 H2]. unfold path in *.
  unfold handle, handler, route_root, route_properties, route_events.
  unfold bind at 1 2 3.
  rewrite H1, H2. simpl.
  rewrite bind_ret_l. apply bind_ret_r.
Qed.

Lemma handle_properties (req : Request) (now : Z) (st : State) (n : nat) :
  addresses_group "properties" req ->
  handle JSON_parse cbor_decode req now st n =
  route_properties req (Str.split "/" (url req)) (Accept req)
    (mkWorld st n freshResponse []).
Proof.
  intros [H1 H2]. unfold path in *.
  unfold handle, handler, route_root, route_actions, route_events.
  unfold bind at 1 2 3.
  rewrite H1, H2. simpl.
  unfold bind. destruct (route_properties _ _ _ _) as [[] w|w]; reflexivity.
Qed.

Lemma handle_events (req : Request) (now : Z) (st : State) (n : nat) :
  addresses_group "events" req ->
  handle JSON_parse cbor_decode req now st n =
  route_events req (Str.split "/" (url req)) (Accept req)
    (mkWorld st n freshResponse []).
Proof.
  intros [H1 H2]. unfold path in *.
  unfold handle, handler, route_root, route_actions, route_properties.
  unfold bind at 1 2 3.
  rewrite H1, H2. simpl. reflexivity.
Qed.

Lemma handle_root (req : Request) (now : Z) (st : State) (n : nat) :
  path req 1 = Some thingName ->
  seg_missing (path req 2) = true ->
  handle JSON_parse cbor_decode req now st n =
  (if String.eqb (method req) "GET" then
     res_end (Some (JSON_stringify_TD thingDescription))
   else set_code 405 ;; res_end None)%handler (mkWorld st n freshResponse []).
Proof.
  intros H1 H2. unfold path in *.
  assert (N : forall s, s <> "" -> seg_is (segment (Str.split "/" (url req)) 2) s = false).
  { intros s Hs. destruct (segment _ 2) as [t|]; simpl in *; auto.
    apply String.eqb_eq in H2. subst t. apply String.eqb_neq. congruence. }
  unfold handle, handler, route_root, route_actions, route_properties, route_events.
  unfold bind at 1 2 3.
  rewrite H1, H2, !N by discriminate. simpl.
  destruct (String.eqb (method req) "GET"); reflexivity.
Qed.

(** *** What a request can touch *)


Lemma preserves_bind {A B} (m : M A) (k : A -> M B) :
  preserves m -> (forall a, preserves (k a)) -> preserves (bind m k).
Proof.
  intros Hm Hk w. unfold bind. specialize (Hm w).
  destruct (m w) as [a w'|w']; simpl in *.
  - destruct Hm as [E1 E2]. destruct (Hk a w') as [E3 E4]. split; congruence.
  - exact Hm.
Qed.


Lemma route_root_preserves req segs : preserves (route_root req segs).
Proof. intros w. unfold route_root. crunch; auto. Qed.

Lemma route_properties_preserves req segs acc :
  preserves (route_properties req segs acc).
Proof.
  intros w. unfold route_properties, property_endpoint, observe. crunch; auto.
Qed.

Lemma route_events_preserves req segs acc :
  preserves (route_events req segs acc).
Proof. intros w. unfold route_events, observe. crunch; auto. Qed.

Lemma route_actions_preserves req segs acc ct now :
  seg_is (segment segs 3) "add" = false ->
  seg_is (segment segs 3) "subtract" = false ->
  preserves (route_actions JSON_parse cbor_decode req segs acc ct now).
Proof.
  intros H1 H2 w. unfold route_actions. rewrite H1, H2. crunch; auto.
Qed.

Lemma route_actions_other_group req segs acc ct now :
  seg_is (segment segs 2) "actions" = false ->
  preserves (route_actions JSON_parse cbor_decode req segs acc ct now).
Proof.
  intros H1 w. unfold route_actions. rewrite H1. simpl. auto.
Qed.

Lemma route_root_extends req segs : extends (route_root req segs).
Proof.
  intros w. unfold route_root. crunch; eauto using app_nil_r.
Qed.




(** The accumulator changes only below [actions/add] and
    [actions/subtract], whatever the first segment is. *)
Lemma handle_preserves (req : Request) (now : Z) (st : State) (n : nat) :
  ~ (path req 2 = Some "actions" /\
     (path req 3 = Some "add" \/ path req 3 = Some "subtract")) ->
  let w := world_of (handle JSON_parse cbor_decode req now st n) in
  state w = st /\ dates w = n.
Proof.
  intros H. cbv zeta. unfold handle.
  assert (P : preserves (handler JSON_parse cbor_decode req now)).
  { unfold handler.
    apply preserves_bind; [apply route_root_preserves|intros _].
    apply preserves_bind; [apply route_properties_preserves|intros _].
    apply preserves_bind; [|intros _; apply route_events_preserves].
    unfold path in H.
    destruct (seg_is (segment (Str.split "/" (url req)) 2) "actions") eqn:E2.
    - apply seg_is_eq in E2.
      apply route_actions_preserves; apply seg_is_neq; intros E3; apply H; auto.
    - now apply route_actions_other_group. }
  apply (P (mkWorld st n freshResponse [])).
Qed.


(** *** Negotiation, payload and mutation *)


(** C3: on a POST below [actions], a body type that is not registered is
    refused with 415; otherwise an accept header that is not registered is
    refused with 406.  The body-type test comes first, and a refused
    request ends the response at once: nothing is decoded and the
    accumulator is as before. *)
Theorem C3_negotiation_failures (req : Request) (now : Z) (st : State) (n : nat) :
  addresses_group "actions" req ->
  method req = "POST" ->
  let o := handle JSON_parse cbor_decode req now st n in
  (registered (declared_type req) = false -> o = refused 415 st n)
  /\ (registered (declared_type req) = true ->
      registered (Accept req) = false -> o = refused 406 st n)
  /\ (registered (declared_type req) = false \/ registered (Accept req) = false ->
      state (world_of o) = st /\ decodes (effects (world_of o)) = []).
Proof.
  intros A P. cbv zeta. rewrite (handle_actions _ _ _ _ A).
  destruct A as [_ A2]. unfold path in A2.
  unfold route_actions, registered. rewrite A2, P. simpl.
  destruct (Str.array_includes supportedContentTypes (declared_type req));
    destruct (Str.array_includes supportedContentTypes (Accept req));
    repeat split; intros; try discriminate; try reflexivity;
    intuition discriminate.
Qed.

(** What the action endpoints do with a decoded operand [v]: refuse it
    when it is not a number or is falsy, else apply [f] and stamp a new
    date. *)
Lemma action_endpoint_run (f : float -> float -> float) (req : Request)
    (now : Z) (v : jsval) (w : World) :
  registered (declared_type req) = true ->
  decoded JSON_parse cbor_decode req = Some v ->
  action_endpoint JSON_parse cbor_decode f req
    (header_string (declared_type req)) (header_string (Accept req)) now w =
  let fx := effects w ++ [Decode (codec_of req) (payload req)] in
  if negb (typeof_number v) || js_not v then
    Returned tt
      (mkWorld (state w) (dates w) (mkResponse (Some 400%Z) (statusCode (res w)))
         (fx ++ [ResEnd (mkResponse (Some 400%Z) (statusCode (res w))) None]))
  else
    let r := f (result (state w)) (number_of v) in
    Returned tt
      (mkWorld (mkState r (JDate (dates w) now)) (S (dates w)) (res w)
         (fx ++ [ResEnd (res w)
                   (Some (encode (header_string (Accept req)) (JNum r)))])).
Proof.
  intros _ D. unfold decoded, codec_of in D.
  unfold action_endpoint, decode, codec_of.
  destruct (Str.includes (header_string (declared_type req)) "application/json");
    run_monad; rewrite D; simpl;
    destruct (negb (typeof_number v) || js_not v); reflexivity.
Qed.

(** A call on [actions/add] or [actions/subtract] reaches its endpoint. *)
Lemma handle_action_call (name : string) (req : Request) (now : Z)
    (st : State) (n : nat) :
  action_call name req ->
  (name = "add" \/ name = "subtract") ->
  handle JSON_parse cbor_decode req now st n =
  action_endpoint JSON_parse cbor_decode
    (if String.eqb name "add" then PrimFloat.add else PrimFloat.sub) req
    (header_string (declared_type req)) (header_string (Accept req)) now
    (mkWorld st n freshResponse
       [ResSetOption "Content-Format" (header_string (Accept req))]).
Proof.
  intros [[A1 [A2 A3]] [P [R1 R2]]] N.
  rewrite (handle_actions _ _ _ _ (conj A1 A2)).
  unfold path in *. unfold registered in *.
  unfold route_actions. rewrite A2, A3, P, R1, R2.
  destruct N; subst name; reflexivity.
Qed.



(** The operands the claim names are among the refused ones. *)
Lemma refused_operands :
  typeof_number JUndefined = false /\ typeof_number JNull = false
  /\ (forall s, typeof_number (JStr s) = false)
  /\ (forall b, typeof_number (JBool b) = false)
  /\ js_not (JNum 0%float) = true /\ js_not (JNum (-0)%float) = true
  /\ js_not (JNum PrimFloat.nan) = true.
Proof. repeat split. Qed.

(** A successful call: the new accumulator, one more date, and the new
    result sent in the accepted encoding. *)
Lemma action_success (name : string) (req : Request) (now : Z)
    (st : State) (n : nat) (x : float) :
  (name = "add" \/ name = "subtract") ->
  action_call name req ->
  decoded JSON_parse cbor_decode req = Some (JNum x) ->
  js_not (JNum x) = false ->
  let r := (if String.eqb name "add" then PrimFloat.add else PrimFloat.sub)
             (result st) x in
  handle JSON_parse cbor_decode req now st n =
  Returned tt
    (mkWorld (mkState r (JDate n now)) (S n) freshResponse
       [ResSetOption "Content-Format" (header_string (Accept req));
        Decode (codec_of req) (payload req);
        ResEnd freshResponse
          (Some (encode (header_string (Accept req)) (JNum r)))]).
Proof.
  intros N A D V. cbv zeta.
  rewrite (handle_action_call name _ _ _ _ A N).
  rewrite (action_endpoint_run _ _ _ (JNum x)) by (assumption || apply A).
  cbv zeta. rewrite V. reflexivity.
Qed.

(** C6, as the code has it: from [result = 0], [add] of 10 then
    [subtract] of 5 gives [result = 5] whatever registered encodings the
    two calls use; each call sets [lastChange] to a new date holding the
    clock reading of its request, so the second date is later than the
    first exactly when the clock has advanced in between. *)
Theorem C6_add_then_subtract (add subtract : Request) (t1 t2 : Z)
    (st : State) (n : nat) :
  result st = 0%float ->
  action_call "add" add ->
  action_call "subtract" subtract ->
  decoded JSON_parse cbor_decode add = Some (JNum 10%float) ->
  decoded JSON_parse cbor_decode subtract = Some (JNum 5%float) ->
  let w1 := world_of (handle JSON_parse cbor_decode add t1 st n) in
  let w2 := world_of (handle JSON_parse cbor_decode subtract t2
                        (state w1) (dates w1)) in
  result (state w1) = 10%float
  /\ lastChange (state w1) = JDate n t1
  /\ ends (effects w1) =
     [(freshResponse, Some (encode (header_string (Accept add)) (JNum 10%float)))]
  /\ result (state w2) = 5%float
  /\ lastChange (state w2) = JDate (S n) t2
  /\ ends (effects w2) =
     [(freshResponse, Some (encode (header_string (Accept subtract)) (JNum 5%float)))]
  /\ later_than (lastChange (state w2)) (lastChange (state w1)) = Z.ltb t1 t2.
Proof.
  intros R A S DA DS. cbv zeta.
  rewrite (action_success "add" add t1 st n 10%float) by (auto; reflexivity).
  cbv zeta. simpl world_of. simpl state. simpl dates.
  rewrite (action_success "subtract" subtract t2 _ _ 5%float) by (auto; reflexivity).
  cbv zeta. rewrite R. simpl. repeat split.
Qed.

(** *** Routing, description and events *)


(** C7: a GET on [events/update] without the observe option set to 0 is
    answered with the status 402 (the CoAP code 4.02, Bad Option) and
    nothing else happens: no interval is started. *)
Theorem C7_event_read_needs_observe (req : Request) (now : Z)
    (st : State) (n : nat) :
  addresses "events" "update" req ->
  method req = "GET" ->
  observe_requested req = false ->
  let o := handle JSON_parse cbor_decode req now st n in
  o = refused 402 st n /\ intervals (effects (world_of o)) = [].
Proof.
  intros [A1 [A2 A3]] G O. cbv zeta.
  rewrite (handle_events _ _ _ _ (conj A1 A2)).
  unfold path in *. unfold route_events. rewrite A2, A3, G, O. simpl.
  split; reflexivity.
Qed.

(** An observe request on a property or on the event starts one
    subscription, which captures the accept header of the request and the
    live value, and leaves the response open. *)
Lemma observe_request_subscribes (group name : string) (what : Watched)
    (req : Request) (now : Z) (st : State) (n : nat) :
  ((group, name, what) = ("properties", "result", WatchResult) \/
   (group, name, what) = ("properties", "lastChange", WatchLastChange) \/
   (group, name, what) = ("events", "update", WatchUpdate)) ->
  addresses group name req ->
  method req = "GET" ->
  registered (Accept req) = true ->
  observe_requested req = true ->
  let w := world_of (handle JSON_parse cbor_decode req now st n) in
  intervals (effects w) =
    [mkSubscription what (header_string (Accept req)) (live what st)]
  /\ ends (effects w) = [] /\ state w = st.
Proof.
  intros K [A1 [A2 A3]] G R O. cbv zeta. unfold registered in R.
  destruct K as [K|[K|K]]; inversion K; subst group name what.
  - rewrite (handle_properties _ _ _ _ (conj A1 A2)). unfold path in *.
    unfold route_properties, property_endpoint. rewrite A2, A3, G, R, O.
    repeat split.
  - rewrite (handle_properties _ _ _ _ (conj A1 A2)). unfold path in *.
    unfold route_properties, property_endpoint. rewrite A2, A3, G, R, O.
    repeat split.
  - rewrite (handle_events _ _ _ _ (conj A1 A2)). unfold path in *.
    unfold route_events. rewrite A2, A3, G, R, O.
    repeat split.
Qed.

(** C9: a GET on the thing itself (no second segment, or an empty one) is
    answered with the whole description as JSON text; the accept header is
    not looked at and no status is set. *)
Theorem C9_description_read (req : Request) (now : Z) (st : State) (n : nat) :
  path req 1 = Some thingName ->
  seg_missing (path req 2) = true ->
  method req = "GET" ->
  handle JSON_parse cbor_decode req now st n =
  Returned tt
    (mkWorld st n freshResponse
       [ResEnd freshResponse (Some (JSON_stringify_TD thingDescription))]).
Proof.
  intros A1 A2 G. rewrite (handle_root _ _ _ _ A1 A2), G. reflexivity.
Qed.



(** *** The accumulator before the first mutation *)


Lemma counts_mutations_bind {A B} (m : M A) (k : A -> M B) :
  counts_mutations m -> (forall a, counts_mutations (k a)) ->
  counts_mutations (bind m k).
Proof.
  intros Hm Hk w. unfold bind. specialize (Hm w).
  destruct (m w) as [a w'|w']; simpl in *.
  - destruct Hm as [L1 E1]. destruct (Hk a w') as [L2 E2]. split.
    + lia.
    + intros E. rewrite E2 by lia. apply E1. lia.
  - exact Hm.
Qed.

Lemma preserves_counts {A} (m : M A) : preserves m -> counts_mutations m.
Proof.
  intros P w. destruct (P w) as [E1 E2]. split; [lia | auto].
Qed.

Lemma route_actions_counts req segs acc ct now :
  counts_mutations (route_actions JSON_parse cbor_decode req segs acc ct now).
Proof.
  intros w. unfold route_actions, action_endpoint, decode.
  crunch; split; intros; solve [lia | reflexivity].
Qed.

Lemma handler_counts (req : Request) (now : Z) :
  counts_mutations (handler JSON_parse cbor_decode req now).
Proof.
  unfold handler.
  apply counts_mutations_bind;
    [apply preserves_counts, route_root_preserves|intros _].
  apply counts_mutations_bind;
    [apply preserves_counts, route_properties_preserves|intros _].
  apply counts_mutations_bind; [apply route_actions_counts|intros _].
  apply preserves_counts, route_events_preserves.
Qed.

(** One request: the date count does not decrease, and the accumulator
    is the same when the count is. *)
Lemma serve_counts (sn : State * nat) (rq : Request * Z) :
  snd sn <= snd (serve JSON_parse cbor_decode sn rq)
  /\ (snd (serve JSON_parse cbor_decode sn rq) = snd sn ->
      fst (serve JSON_parse cbor_decode sn rq) = fst sn).
Proof.
  unfold serve, handle. simpl.
  apply (handler_counts (fst rq) (snd rq)
           (mkWorld (fst sn) (snd sn) freshResponse [])).
Qed.

Lemma run_counts (history : list (Request * Z)) (sn : State * nat) :
  snd sn <= snd (run JSON_parse cbor_decode history sn).
Proof.
  revert sn. unfold run.
  induction history as [|rq h IH]; intros sn; simpl; [lia|].
  specialize (IH (serve JSON_parse cbor_decode sn rq)).
  destruct (serve_counts sn rq) as [L _]. lia.
Qed.

(** As long as no date has been created, the accumulator is the one the
    run started from. *)
Lemma run_unmutated (history : list (Request * Z)) (sn : State * nat) :
  snd (run JSON_parse cbor_decode history sn) = snd sn ->
  fst (run JSON_parse cbor_decode history sn) = fst sn.
Proof.
  revert sn.
  induction history as [|rq h IH]; intros sn E; [reflexivity|].
  change (run JSON_parse cbor_decode (rq :: h) sn)
    with (run JSON_parse cbor_decode h (serve JSON_parse cbor_decode sn rq)) in *.
  pose proof (run_counts h (serve JSON_parse cbor_decode sn rq)) as L2.
  destruct (serve_counts sn rq) as [L1 E1].
  rewrite IH by lia. apply E1. lia.
Qed.

(** C10: [lastChange] starts as the empty string, and as long as no
    [add] or [subtract] has succeeded (no date has been created) a plain
    read of the property sends the empty string in the negotiated
    representation: as JSON text when the accept header is
    [application/json], as CBOR data when it is [application/cbor]. *)
Theorem C10_lastChange_before_first_mutation
    (history : list (Request * Z)) (req : Request) (now : Z) :
  snd (run JSON_parse cbor_decode history (initialState, 0)) = 0 ->
  addresses "properties" "lastChange" req ->
  method req = "GET" ->
  registered (Accept req) = true ->
  observe_requested req = false ->
  let sn := run JSON_parse cbor_decode history (initialState, 0) in
  lastChange initialState = JStr ""
  /\ lastChange (fst sn) = JStr ""
  /\ handle JSON_parse cbor_decode req now (fst sn) (snd sn) =
     Returned tt
       (mkWorld (fst sn) (snd sn) freshResponse
          [ResSetOption "Content-Format" (header_string (Accept req));
           ResEnd freshResponse
             (Some (in_representation (header_string (Accept req)) (JStr "")))])
  /\ ((Accept req = Some "application/json" /\
       in_representation (header_string (Accept req)) (JStr "")
       = JSON_stringify (JStr "")) \/
      (Accept req = Some "application/cbor" /\
       in_representation (header_string (Accept req)) (JStr "")
       = cbor_encode (JStr ""))).
Proof.
  intros Z0 [A1 [A2 A3]] G R O. cbv zeta.
  pose proof (run_unmutated history (initialState, 0) Z0) as E.
  simpl in E. split; [reflexivity|]. split; [now rewrite E|]. split.
  - rewrite <- (encode_registered _ _ R).
    rewrite (handle_properties _ _ _ _ (conj A1 A2)).
    unfold path in *. unfold registered in R.
    unfold route_properties, property_endpoint. rewrite A2, A3, G, R, O, E.
    reflexivity.
  - destruct (registered_cases _ R) as [J|C]; [left|right]; rewrite ?J, ?C;
      split; reflexivity.
Qed.
End Listener.

(** *** Subscriptions *)

(** C8, as the code has it: a tick writes a notification exactly when
    the remembered value and the live value are not [===]; the
    notification is the live value as JSON text when the accept header
    captured at subscription start is [application/json] and as CBOR data
    when it is [application/cbor], and the remembered value becomes the
    live one.  A tick that finds them [===] writes nothing and changes
    nothing, so on a value that is [===] itself a second tick is silent.
    A value that is not [===] itself is written again by the next tick
    although nothing has changed; for [result] that is exactly NaN. *)
Theorem C8_tick_notifies_on_change (s : Subscription) (st : State) (r : Response) :
  registered (Some (sub_accept s)) = true ->
  let current := live (watched s) st in
  let changed := negb (strict_eq (old s) current) in
  let notification := in_representation (sub_accept s) current in
  let '(s', r', fx) := tick s st r in
  writes fx = (if changed then [notification] else [])
  /\ old s' = (if changed then current else old s)
  /\ sub_accept s' = sub_accept s
  /\ watched s' = watched s
  /\ (strict_eq current current = true ->
      let '(s'', _, fx') := tick s' st r' in writes fx' = [] /\ s'' = s')
  /\ ((sub_accept s = "application/json" /\
       notification = JSON_stringify current) \/
      (sub_accept s = "application/cbor" /\
       notification = cbor_encode current))
  /\ (changed = true -> strict_eq current current = false ->
      let '(s'', _, fx') := tick s' st r' in
      writes fx' = [notification] /\ s'' = s')
  /\ (watched s <> WatchLastChange ->
      strict_eq current current = negb (PrimFloat.is_nan (result st))).
Proof.
  intros R. cbv zeta.
  pose proof (encode_registered (Some (sub_accept s)) (live (watched s) st) R)
    as E0. simpl header_string in E0.
  assert (K : (sub_accept s = "application/json" /\
               in_representation (sub_accept s) (live (watched s) st)
               = JSON_stringify (live (watched s) st)) \/
              (sub_accept s = "application/cbor" /\
               in_representation (sub_accept s) (live (watched s) st)
               = cbor_encode (live (watched s) st))).
  { destruct (registered_cases _ R) as [J|J]; inversion J as [J'];
      [left|right]; rewrite J'; split; reflexivity. }
  assert (N : watched s <> WatchLastChange ->
              strict_eq (live (watched s) st) (live (watched s) st)
              = negb (PrimFloat.is_nan (result st))).
  { intros W. unfold PrimFloat.is_nan. rewrite negb_involutive.
    destruct (watched s); try congruence; reflexivity. }
  revert K N. rewrite <- E0. intros K N. unfold tick.
  destruct (strict_eq (old s) (live (watched s) st)) eqn:E; simpl.
  - rewrite E. simpl.
    split; [destruct (watched s); reflexivity|].
    split; [reflexivity|]. split; [reflexivity|]. split; [reflexivity|].
    split; [intros _; destruct (watched s); split; reflexivity|].
    split; [exact K|]. split; [discriminate|exact N].
  - split; [destruct (watched s); reflexivity|].
    split; [reflexivity|]. split; [reflexivity|]. split; [reflexivity|].
    split; [intros C; rewrite C; simpl; destruct (watched s); split; reflexivity|].
    split; [exact K|]. split; [|exact N].
    intros _ C. rewrite C. simpl. destruct (watched s); split; reflexivity.
Qed.

(** An observe request starts a subscription that remembers the live value
    and the accept header of the request. *)
Lemma observe_starts_subscription (what : Watched) (acceptHeaders : string)
    (w : World) :
  intervals (effects (world_of (observe what acceptHeaders w))) =
  intervals (effects w) ++
  [mkSubscription what acceptHeaders (live what (state w))].
Proof.
  unfold observe. run_monad. unfold intervals.
  rewrite flat_map_app. reflexivity.
Qed.

(** ** Runs on concrete requests *)


(** C3 on concrete requests: a body of type [text/plain] is refused with
    415 even when the accept header is not registered either; a registered
    body with accept [text/plain] is refused with 406. *)
Lemma C3_negotiation_failures_witness :
  Demo.handle (Demo.post (Demo.root ++ "/actions/add") Demo.plain Demo.plain "10")
    7 initialState 0 = refused 415 initialState 0
  /\ Demo.handle (Demo.post (Demo.root ++ "/actions/add") Demo.plain Demo.json "10")
       7 initialState 0 = refused 406 initialState 0.
Proof.
  split.
  - apply (C3_negotiation_failures Demo.parse Demo.parse
             (Demo.post (Demo.root ++ "/actions/add") Demo.plain Demo.plain "10")
             7 initialState 0); run_demo.
  - apply (C3_negotiation_failures Demo.parse Demo.parse
             (Demo.post (Demo.root ++ "/actions/add") Demo.plain Demo.json "10")
             7 initialState 0); run_demo.
Defined.



(** The four blocks of the listener run one after the other, so a valid
    [add] under a wrong thing name is answered with 404 and then carried
    out all the same. *)
Lemma wrong_name_add_is_carried_out :
  let req := Demo.post "/other/actions/add" Demo.cbor Demo.json "10" in
  let w := world_of (Demo.handle req 7 initialState 0) in
  path req 1 <> Some thingName
  /\ first_response (Demo.handle req 7 initialState 0) = Some (status 404, None)
  /\ state w = mkState 10%float (JDate 0 7)
  /\ state w <> initialState.
Proof.
  cbv zeta. repeat split; vm_compute; try reflexivity; discriminate.
Qed.



(** C6 on concrete requests: JSON in and CBOR out for [add], CBOR in and
    JSON out for [subtract], with the clock at 1000 and then 2000. *)
Lemma C6_add_then_subtract_witness :
  let w1 := world_of (Demo.handle Demo.add10 1000 initialState 0) in
  let w2 := world_of (Demo.handle Demo.subtract5 2000 (state w1) (dates w1)) in
  result (state w2) = 5%float
  /\ lastChange (state w1) = JDate 0 1000
  /\ lastChange (state w2) = JDate 1 2000
  /\ later_than (lastChange (state w2)) (lastChange (state w1)) = true.
Proof.
  cbv zeta.
  destruct (C6_add_then_subtract Demo.parse Demo.parse Demo.add10 Demo.subtract5
              1000 2000 initialState 0) as [_ [L1 [_ [R2 [L2 [_ Lt]]]]]];
    [ | run_demo .. ].
  repeat split; assumption.
Defined.

(** C6 as claimed fails when both calls read the same clock value: both
    succeed and [result] is 5, but the second date is not later than the
    first. *)
Lemma C6_same_clock_reading :
  let w1 := world_of (Demo.handle Demo.add10 1000 initialState 0) in
  let w2 := world_of (Demo.handle Demo.subtract5 1000 (state w1) (dates w1)) in
  result (state w2) = 5%float
  /\ lastChange (state w1) = JDate 0 1000
  /\ lastChange (state w2) = JDate 1 1000
  /\ later_than (lastChange (state w2)) (lastChange (state w1)) = false.
Proof. cbv zeta. repeat split. Qed.

(** C7 on a concrete request: a plain GET on [events/update]. *)
Lemma C7_event_read_needs_observe_witness :
  Demo.handle (Demo.get (Demo.root ++ "/events/update") Demo.json None)
    7 initialState 0 = refused 402 initialState 0.
Proof.
  apply (C7_event_read_needs_observe Demo.parse Demo.parse
           (Demo.get (Demo.root ++ "/events/update") Demo.json None)
           7 initialState 0); run_demo.
Defined.

(** C8 on concrete subscriptions: [result] observed as CBOR and as JSON
    since it was 0, ticking when it is 10. *)
Lemma C8_tick_notifies_on_change_witness :
  let st := mkState 10%float (JDate 0 1000) in
  (let '(s', r', fx) :=
     tick (mkSubscription WatchResult "application/cbor" (JNum 0%float))
       st freshResponse in
   writes fx = [cbor_encode (JNum 10%float)]
   /\ old s' = JNum 10%float
   /\ (let '(s'', _, fx') := tick s' st r' in writes fx' = [] /\ s'' = s'))
  /\ (let '(s', r', fx) :=
        tick (mkSubscription WatchResult "application/json" (JNum 0%float))
          st freshResponse in
      writes fx = [JSON_stringify (JNum 10%float)]).
Proof.
  cbv zeta. split.
  - pose proof (C8_tick_notifies_on_change
                  (mkSubscription WatchResult "application/cbor" (JNum 0%float))
                  (mkState 10%float (JDate 0 1000)) freshResponse
                  (eq_refl true)) as H.
    cbv zeta in H.
    destruct (tick (mkSubscription WatchResult "application/cbor" (JNum 0%float))
                (mkState 10%float (JDate 0 1000)) freshResponse) as [[s' r'] fx].
    destruct H as [W [O [_ [_ [Q _]]]]].
    split; [exact W|]. split; [exact O|]. apply Q. reflexivity.
  - pose proof (C8_tick_notifies_on_change
                  (mkSubscription WatchResult "application/json" (JNum 0%float))
                  (mkState 10%float (JDate 0 1000)) freshResponse
                  (eq_refl true)) as H.
    cbv zeta in H.
    destruct (tick (mkSubscription WatchResult "application/json" (JNum 0%float))
                (mkState 10%float (JDate 0 1000)) freshResponse) as [[s' r'] fx].
    destruct H as [W _]. exact W.
Defined.

(** C8 as claimed fails once [result] is NaN.  An [add] and a [subtract]
    of the JSON number [1e999] (infinity) are both accepted and leave
    [result] NaN; a subscription to [result] is then notified on one tick
    and, with the accumulator untouched in between, again on the next. *)
Lemma C8_nan_is_sent_while_unchanged :
  let w1 := world_of (handle Sample.parseHuge Sample.parseHuge Sample.addHuge
                        7 initialState 0) in
  let w2 := world_of (handle Sample.parseHuge Sample.parseHuge
                        Sample.subtractHuge 8 (state w1) (dates w1)) in
  let st := state w2 in
  let '(s1, r1, fx1) :=
    tick (mkSubscription WatchResult "application/json" (JNum 0%float))
      st freshResponse in
  let '(s2, _, fx2) := tick s1 st r1 in
  ends (effects w1) =
    [(freshResponse, Some (JSON_stringify (JNum infinity)))]
  /\ ends (effects w2) =
    [(freshResponse, Some (JSON_stringify (JNum (result st))))]
  /\ PrimFloat.is_nan (result st) = true
  /\ writes fx1 = [JSON_stringify (JNum (result st))]
  /\ old s1 = live WatchResult st
  /\ writes fx2 = [JSON_stringify (JNum (result st))]
  /\ writes fx2 <> [].
Proof.
  cbv zeta. vm_compute. repeat split. discriminate.
Qed.

(** C9 on a concrete request: the description is read with an accept
    header that is not registered. *)
Lemma C9_description_read_witness :
  Demo.handle (Demo.get Demo.root Demo.plain None) 7 initialState 0 =
  Returned tt
    (mkWorld initialState 0 freshResponse
       [ResEnd freshResponse (Some (JSON_stringify_TD thingDescription))]).
Proof.
  apply (C9_description_read Demo.parse Demo.parse
           (Demo.get Demo.root Demo.plain None) 7 initialState 0); run_demo.
Defined.

(** C10 on a concrete history: a read of [result] and a refused [add],
    then [lastChange] read as CBOR and as JSON. *)
Lemma C10_lastChange_before_first_mutation_witness :
  let history :=
    [(Demo.get (Demo.root ++ "/properties/result") Demo.json None, 5%Z);
     (Demo.add0, 6%Z)] in
  let sn := Demo.run history (initialState, 0) in
  ends (effects (world_of
    (Demo.handle (Sample.readLastChange Demo.cbor) 7 (fst sn) (snd sn))))
  = [(freshResponse, Some (cbor_encode (JStr "")))]
  /\ ends (effects (world_of
    (Demo.handle (Sample.readLastChange Demo.json) 7 (fst sn) (snd sn))))
  = [(freshResponse, Some (JSON_stringify (JStr "")))].
Proof.
  cbv zeta. split.
  - pose proof
      (C10_lastChange_before_first_mutation Demo.parse Demo.parse
         [(Demo.get (Demo.root ++ "/properties/result") Demo.json None, 5%Z);
          (Demo.add0, 6%Z)]
         (Sample.readLastChange Demo.cbor) 7
         ltac:(vm_compute; reflexivity) ltac:(run_demo) ltac:(reflexivity)
         ltac:(reflexivity) ltac:(reflexivity)) as H.
    cbv zeta in H. destruct H as [_ [_ [H _]]].
    unfold Demo.handle, Demo.run. rewrite H. reflexivity.
  - pose proof
      (C10_lastChange_before_first_mutation Demo.parse Demo.parse
         [(Demo.get (Demo.root ++ "/properties/result") Demo.json None, 5%Z);
          (Demo.add0, 6%Z)]
         (Sample.readLastChange Demo.json) 7
         ltac:(vm_compute; reflexivity) ltac:(run_demo) ltac:(reflexivity)
         ltac:(reflexivity) ltac:(reflexivity)) as H.
    cbv zeta in H. destruct H as [_ [_ [H _]]].
    unfold Demo.handle, Demo.run. rewrite H. reflexivity.
Defined.

(** ** Further properties of the listener *)

Section ListenerMore.
Variable JSON_parse : string -> option jsval.
Variable cbor_decode : string -> option jsval.

(** A second segment that is present and non-empty skips the first block
    on the thing. *)
Lemma seg_present_not_missing (x : option string) (s : string) :
  x = Some s -> s <> "" -> seg_missing x = false.
Proof. intros -> H. simpl. now apply String.eqb_neq. Qed.

(** X1: on the thing, a wrong method is refused with 405 and nothing else
    happens: anything but GET on the thing itself or below [properties],
    anything but POST below [actions]. *)
Theorem method_not_allowed (req : Request) (now : Z) (st : State) (n : nat) :
  path req 1 = Some thingName ->
  (seg_missing (path req 2) = true /\ method req <> "GET") \/
  (path req 2 = Some "properties" /\ method req <> "GET") \/
  (path req 2 = Some "actions" /\ method req <> "POST") ->
  handle JSON_parse cbor_decode req now st n = refused 405 st n.
Proof.
  intros A1 [[A2 Me]|[[A2 Me]|[A2 Me]]]; apply String.eqb_neq in Me.
  - rewrite (handle_root _ _ _ _ _ _ A1 A2), Me. reflexivity.
  - rewrite (handle_properties _ _ _ _ _ _ (conj A1 A2)).
    unfold path in *. unfold route_properties. rewrite A2, Me. reflexivity.
  - rewrite (handle_actions _ _ _ _ _ _ (conj A1 A2)).
    unfold path in *. unfold route_actions. rewrite A2, Me. reflexivity.
Qed.

(** On the thing, a second segment that is present but names none of the
    blocks that accept the method leaves the world as it was. *)
Lemma handler_skips_all_blocks (req : Request) (now : Z) (w : World) :
  path req 1 = Some thingName ->
  seg_missing (path req 2) = false ->
  seg_is (path req 2) "properties" = false ->
  seg_is (path req 2) "actions" = false ->
  seg_is (path req 2) "events" && String.eqb (method req) "GET" = false ->
  handler JSON_parse cbor_decode req now w = Returned tt w.
Proof.
  intros A1 A2 NP NA NE. unfold path in *.
  unfold handler, route_root, route_properties, route_actions, route_events.
  unfold bind at 1 2 3. rewrite A1, A2, NP, NA, NE. reflexivity.
Qed.

(** X2: a request on the thing whose second segment is none of the three
    groups, or is [events] with a method other than GET, matches no block:
    the listener returns without ending the response or doing anything. *)
Theorem unanswered_request (req : Request) (now : Z) (st : State) (n : nat) :
  path req 1 = Some thingName ->
  seg_missing (path req 2) = false ->
  path req 2 <> Some "properties" ->
  path req 2 <> Some "actions" ->
  (path req 2 = Some "events" -> method req <> "GET") ->
  handle JSON_parse cbor_decode req now st n =
  Returned tt (mkWorld st n freshResponse []).
Proof.
  intros A1 A2 NP NA NE. apply seg_is_neq in NP, NA.
  apply handler_skips_all_blocks; auto.
  destruct (seg_is (path req 2) "events") eqn:E; [|reflexivity].
  apply seg_is_eq in E. apply NE, String.eqb_neq in E. now rewrite E.
Qed.

(** X3: a GET with an accept header that is not registered is refused
    with 406, set through [statusCode]: below [properties] whatever the
    property name, and on an observe request for [events/update], where no
    interval is started. *)
Theorem not_acceptable_read (req : Request) (now : Z) (st : State) (n : nat) :
  path req 1 = Some thingName ->
  method req = "GET" ->
  registered (Accept req) = false ->
  path req 2 = Some "properties" \/
  (path req 2 = Some "events" /\ path req 3 = Some "update" /\
   observe_requested req = true) ->
  handle JSON_parse cbor_decode req now st n =
  Returned tt (mkWorld st n (status_only 406) [ResEnd (status_only 406) None]).
Proof.
  intros A1 G R [A2|[A2 [A3 O]]]; unfold registered in R.
  - rewrite (handle_properties _ _ _ _ _ _ (conj A1 A2)).
    unfold path in *. unfold route_properties. rewrite A2, G, R. reflexivity.
  - rewrite (handle_events _ _ _ _ _ _ (conj A1 A2)).
    unfold path in *. unfold route_events. rewrite A2, A3, G, O, R. reflexivity.
Qed.

(** X4: a plain GET of [result] or [lastChange] with a registered accept
    header sets the [Content-Format] option to that header and ends the
    response with the current value in the accepted encoding; no status is
    set and the accumulator is untouched. *)
Theorem property_read (name : string) (what : Watched) (req : Request)
    (now : Z) (st : State) (n : nat) :
  (name, what) = ("result", WatchResult) \/
  (name, what) = ("lastChange", WatchLastChange) ->
  addresses "properties" name req ->
  method req = "GET" ->
  registered (Accept req) = true ->
  observe_requested req = false ->
  handle JSON_parse cbor_decode req now st n =
  Returned tt
    (mkWorld st n freshResponse
       [ResSetOption "Content-Format" (header_string (Accept req));
        ResEnd freshResponse
          (Some (in_representation (header_string (Accept req))
                   (live what st)))]).
Proof.
  intros K [A1 [A2 A3]] G R O. rewrite <- (encode_registered _ _ R).
  unfold registered in R.
  rewrite (handle_properties _ _ _ _ _ _ (conj A1 A2)). unfold path in *.
  unfold route_properties, property_endpoint.
  destruct K as [K|K]; inversion K; subst name what;
    rewrite A2, A3, G, R, O; reflexivity.
Qed.

(** The actions block, once its four tests have passed on a path that
    names [add] or [subtract], is the endpoint of that action. *)
Lemma route_actions_call (req : Request) (now : Z) (w : World) :
  path req 2 = Some "actions" ->
  path req 3 = Some "add" \/ path req 3 = Some "subtract" ->
  method req = "POST" ->
  registered (declared_type req) = true ->
  registered (Accept req) = true ->
  route_actions JSON_parse cbor_decode req (Str.split "/" (url req))
    (Accept req) (declared_type req) now w =
  action_endpoint JSON_parse cbor_decode (operator_of req) req
    (header_string (declared_type req)) (header_string (Accept req)) now
    (mkWorld (state w) (dates w) (res w)
       (effects w ++
        [ResSetOption "Content-Format" (header_string (Accept req))])).
Proof.
  intros A2 A3 P R1 R2. unfold registered in *. unfold operator_of.
  unfold path in *. unfold route_actions. rewrite A2, P, R1, R2.
  destruct A3 as [A3|A3]; rewrite A3; reflexivity.
Qed.

(** What the first block leaves behind when the second segment is
    [actions]: nothing on the thing, an ended 404 response otherwise. *)
Lemma route_root_before_actions (req : Request) (w : World) :
  path req 2 = Some "actions" ->
  route_root req (Str.split "/" (url req)) w =
  if seg_is (path req 1) thingName then Returned tt w
  else Returned tt
         (mkWorld (state w) (dates w)
            (mkResponse (Some 404%Z) (statusCode (res w)))
            (effects w ++
             [ResEnd (mkResponse (Some 404%Z) (statusCode (res w))) None])).
Proof.
  intros A2. unfold path in *. unfold route_root. rewrite A2.
  destruct (seg_is (segment (Str.split "/" (url req)) 1) thingName); reflexivity.
Qed.

(** The listener on a path below [actions], whatever the first segment. *)
Lemma handler_below_actions (req : Request) (now : Z) (w : World) :
  path req 2 = Some "actions" ->
  handler JSON_parse cbor_decode req now w =
  match route_root req (Str.split "/" (url req)) w with
  | Returned _ w1 =>
      route_actions JSON_parse cbor_decode req (Str.split "/" (url req))
        (Accept req) (declared_type req) now w1
  | Thrown w1 => Thrown w1
  end.
Proof.
  intros A2. unfold path in *. unfold handler. unfold bind at 1.
  destruct (route_root req (Str.split "/" (url req)) w) as [[] w1|w1];
    [|reflexivity].
  unfold route_properties, route_events. rewrite A2.
  change (seg_is (Some "actions") "properties") with false.
  change (seg_is (Some "actions") "events") with false.
  cbv iota. simpl andb. cbv iota.
  rewrite bind_ret_l. apply bind_ret_r.
Qed.

(** The accumulator after a request that reaches the assignments. *)
Lemma assignment_state (req : Request) (now : Z) (st : State) (n : nat)
    (x : float) :
  reaches_assignment JSON_parse cbor_decode req x ->
  state (world_of (handle JSON_parse cbor_decode req now st n)) =
    mkState (operator_of req (result st) x) (JDate n now)
  /\ dates (world_of (handle JSON_parse cbor_decode req now st n)) = S n.
Proof.
  intros [A2 [A3 [P [R1 [R2 [D V]]]]]].
  unfold handle. rewrite (handler_below_actions _ _ _ A2).
  rewrite (route_root_before_actions _ _ A2).
  destruct (seg_is (path req 1) thingName);
    rewrite (route_actions_call _ _ _ A2 A3 P R1 R2),
      (action_endpoint_run _ _ _ _ _ (JNum x) _ R1 D);
    cbv zeta; rewrite V; simpl; split; reflexivity.
Qed.

(** X5: the accumulator changes exactly on a POST below [actions] that
    names [add] or [subtract], has registered body type and accept header
    and a body decoded to a number other than 0 and NaN.  Then [result]
    becomes [result + x] or [result - x] and [lastChange] a new date with
    the clock reading; the first path segment plays no part.  Every other
    request leaves [result], [lastChange] and the date count as they were. *)
Theorem accumulator_changes_exactly_on_valid_calls (req : Request) (now : Z)
    (st : State) (n : nat) :
  let w := world_of (handle JSON_parse cbor_decode req now st n) in
  (forall x, reaches_assignment JSON_parse cbor_decode req x ->
     state w = mkState (operator_of req (result st) x) (JDate n now)
     /\ dates w = S n)
  /\ ((forall x, ~ reaches_assignment JSON_parse cbor_decode req x) ->
      state w = st /\ dates w = n).
Proof.
  cbv zeta. split.
  - apply assignment_state.
  - intros H.
    destruct (seg_is (path req 2) "actions") eqn:E2.
    + apply seg_is_eq in E2.
      destruct (seg_is (path req 3) "add" || seg_is (path req 3) "subtract")
        eqn:E3.
      * assert (A3 : path req 3 = Some "add" \/ path req 3 = Some "subtract").
        { apply orb_true_iff in E3. destruct E3 as [E3|E3];
            apply seg_is_eq in E3; auto. }
        unfold handle. rewrite (handler_below_actions _ _ _ E2).
        rewrite (route_root_before_actions _ _ E2).
        assert (G : forall w0,
                  state (world_of
                    (route_actions JSON_parse cbor_decode req
                       (Str.split "/" (url req)) (Accept req)
                       (declared_type req) now w0)) = state w0
                  /\ dates (world_of
                    (route_actions JSON_parse cbor_decode req
                       (Str.split "/" (url req)) (Accept req)
                       (declared_type req) now w0)) = dates w0).
        { intros w0.
          destruct (String.eqb_spec (method req) "POST") as [P|P].
          2:{ apply String.eqb_neq in P. unfold path in *. unfold route_actions.
              rewrite E2, P. simpl. auto. }
          destruct (registered (declared_type req)) eqn:R1.
          2:{ unfold registered in R1. unfold path in *. unfold route_actions.
              rewrite E2, P, R1. simpl. auto. }
          destruct (registered (Accept req)) eqn:R2.
          2:{ unfold registered in R1, R2. unfold path in *.
              unfold route_actions. rewrite E2, P, R1, R2. simpl. auto. }
          rewrite (route_actions_call _ _ _ E2 A3 P R1 R2).
          destruct (decoded JSON_parse cbor_decode req) as [v|] eqn:D.
          - rewrite (action_endpoint_run _ _ _ _ _ v _ R1 D). cbv zeta.
            destruct (negb (typeof_number v) || js_not v) eqn:V; [simpl; auto|].
            exfalso. apply orb_false_iff in V. destruct V as [V1 V2].
            destruct v; try discriminate.
            apply (H x). repeat split; auto.
          - unfold decoded, codec_of in D. unfold action_endpoint, decode.
            destruct (Str.includes (header_string (declared_type req))
                        "application/json");
              run_monad; rewrite D; simpl; auto. }
        destruct (seg_is (path req 1) thingName); apply G.
      * apply orb_false_iff in E3. destruct E3 as [N1 N2].
        apply seg_is_neq in N1, N2.
        apply handle_preserves. intros [_ [C|C]]; contradiction.
    + apply seg_is_neq in E2. apply handle_preserves. intros [C _]. contradiction.
Qed.

(** X6: the 404 for a wrong first segment does not end the listener.  A
    valid call below [actions] under a wrong thing name is answered with
    404 and then carried out: the accumulator changes, and [res.end] is
    called a second time with the new result. *)
Theorem wrong_name_call_is_carried_out (req : Request) (now : Z) (st : State)
    (n : nat) (x : float) :
  path req 1 <> Some thingName ->
  reaches_assignment JSON_parse cbor_decode req x ->
  let r := operator_of req (result st) x in
  handle JSON_parse cbor_decode req now st n =
  Returned tt
    (mkWorld (mkState r (JDate n now)) (S n) (status 404)
       [ResEnd (status 404) None;
        ResSetOption "Content-Format" (header_string (Accept req));
        Decode (codec_of req) (payload req);
        ResEnd (status 404)
          (Some (encode (header_string (Accept req)) (JNum r)))]).
Proof.
  intros N [A2 [A3 [P [R1 [R2 [D V]]]]]]. cbv zeta.
  apply seg_is_neq in N.
  unfold handle. rewrite (handler_below_actions _ _ _ A2).
  rewrite (route_root_before_actions _ _ A2), N.
  rewrite (route_actions_call _ _ _ A2 A3 P R1 R2),
    (action_endpoint_run _ _ _ _ _ (JNum x) _ R1 D).
  cbv zeta. rewrite V. reflexivity.
Qed.

(** X7: a valid call on the thing: the [Content-Format] option is set to
    the accept header, the body is decoded once with the decoder of its
    declared type, and the response ends, without a status of its own,
    with the new result in the accepted encoding. *)
Theorem valid_call_outcome (req : Request) (now : Z) (st : State)
    (n : nat) (x : float) :
  path req 1 = Some thingName ->
  reaches_assignment JSON_parse cbor_decode req x ->
  let r := operator_of req (result st) x in
  handle JSON_parse cbor_decode req now st n =
  Returned tt
    (mkWorld (mkState r (JDate n now)) (S n) freshResponse
       [ResSetOption "Content-Format" (header_string (Accept req));
        Decode (codec_of req) (payload req);
        ResEnd freshResponse
          (Some (in_representation (header_string (Accept req)) (JNum r)))]).
Proof.
  intros N [A2 [A3 [P [R1 [R2 [D V]]]]]]. cbv zeta.
  rewrite <- (encode_registered _ _ R2).
  apply seg_is_eq in N.
  unfold handle. rewrite (handler_below_actions _ _ _ A2).
  rewrite (route_root_before_actions _ _ A2), N.
  rewrite (route_actions_call _ _ _ A2 A3 P R1 R2),
    (action_endpoint_run _ _ _ _ _ (JNum x) _ R1 D).
  cbv zeta. rewrite V. reflexivity.
Qed.

(** X8: a request on the thing gets at most one answer: the listener
    calls [res.end] once, or starts one interval and leaves the response
    open, or (unanswered, or thrown while decoding) does neither; never
    both and never twice. *)
Theorem at_most_one_answer (req : Request) (now : Z) (st : State) (n : nat) :
  path req 1 = Some thingName ->
  let fx := effects (world_of (handle JSON_parse cbor_decode req now st n)) in
  List.length (ends fx) + List.length (intervals fx) <= 1.
Proof.
  intros A1. cbv zeta.
  destruct (seg_missing (path req 2)) eqn:M.
  { rewrite (handle_root _ _ _ _ _ _ A1 M).
    destruct (String.eqb (method req) "GET"); simpl; lia. }
  destruct (seg_is (path req 2) "properties") eqn:EP.
  { apply seg_is_eq in EP. rewrite (handle_properties _ _ _ _ _ _ (conj A1 EP)).
    unfold route_properties, property_endpoint, observe. crunch; lia. }
  destruct (seg_is (path req 2) "actions") eqn:EA.
  { apply seg_is_eq in EA. rewrite (handle_actions _ _ _ _ _ _ (conj A1 EA)).
    unfold route_actions, action_endpoint, decode. crunch; lia. }
  destruct (seg_is (path req 2) "events") eqn:EE.
  { apply seg_is_eq in EE. rewrite (handle_events _ _ _ _ _ _ (conj A1 EE)).
    unfold route_events, observe. crunch; lia. }
  unfold handle. rewrite handler_skips_all_blocks; auto; try (simpl; lia).
  now rewrite EE.
Qed.

(** X9: [Content-Type] wins over [Content-Format]: when the request has a
    non-empty [Content-Type] header, the [Content-Format] header has no
    influence on what the listener does. *)
Theorem content_type_takes_precedence (req : Request) (s : string)
    (cf : option string) (now : Z) (st : State) (n : nat) :
  Content_Type req = Some s ->
  s <> "" ->
  handle JSON_parse cbor_decode (with_Content_Format cf req) now st n =
  handle JSON_parse cbor_decode req now st n.
Proof.
  intros H N. apply String.eqb_neq in N.
  unfold handle, handler, route_root, route_properties, route_actions,
    route_events, property_endpoint, action_endpoint, observe_requested,
    with_Content_Format.
  cbn [url method Accept Content_Type Content_Format Observe payload].
  unfold header_or. rewrite H, N. reflexivity.
Qed.

(** X10: a read after a call sees the call.  After a request that reaches
    the assignments, a plain GET of [result] is answered with the number
    the call computed, and one of [lastChange] with the date created by
    the call, each in the encoding its own accept header asks for. *)
Theorem read_after_call (call rd : Request) (t1 t2 : Z) (st : State)
    (n : nat) (x : float) (name : string) (what : Watched) :
  reaches_assignment JSON_parse cbor_decode call x ->
  (name, what) = ("result", WatchResult) \/
  (name, what) = ("lastChange", WatchLastChange) ->
  addresses "properties" name rd ->
  method rd = "GET" ->
  registered (Accept rd) = true ->
  observe_requested rd = false ->
  let w1 := world_of (handle JSON_parse cbor_decode call t1 st n) in
  let w2 := world_of (handle JSON_parse cbor_decode rd t2 (state w1) (dates w1)) in
  ends (effects w2) =
    [(freshResponse,
      Some (in_representation (header_string (Accept rd))
              match what with
              | WatchLastChange => JDate n t1
              | WatchResult | WatchUpdate =>
                  JNum (operator_of call (result st) x)
              end))]
  /\ state w2 = state w1.
Proof.
  intros RA K [A1 [A2 A3]] G R O. cbv zeta.
  rewrite <- (encode_registered _ _ R).
  destruct (assignment_state call t1 st n x RA) as [S1 D1]. rewrite S1, D1.
  rewrite (handle_properties _ _ _ _ _ _ (conj A1 A2)).
  unfold path in *. unfold registered in R.
  unfold route_properties, property_endpoint.
  destruct K as [K|K]; inversion K; subst name what;
    rewrite A2, A3, G, R, O; split; reflexivity.
Qed.

(** *** Throwing *)

Lemma route_root_returns req segs w :
  exists w', route_root req segs w = Returned tt w'.
Proof. unfold route_root. crunch; eauto. Qed.

Lemma route_properties_returns req segs acc w :
  exists w', route_properties req segs acc w = Returned tt w'.
Proof. unfold route_properties, property_endpoint, observe. crunch; eauto. Qed.

Lemma route_events_returns req segs acc w :
  exists w', route_events req segs acc w = Returned tt w'.
Proof. unfold route_events, observe. crunch; eauto. Qed.

(** X21: the listener throws only while decoding.  If it throws, the
    request was a POST below [actions] naming [add] or [subtract] with
    registered body type and accept header, its decoder threw on the
    body, and the accumulator is as it was: a throw never leaves a change
    behind. *)
Theorem listener_throws_only_while_decoding (req : Request) (now : Z)
    (st : State) (n : nat) (w : World) :
  handle JSON_parse cbor_decode req now st n = Thrown w ->
  path req 2 = Some "actions"
  /\ (path req 3 = Some "add" \/ path req 3 = Some "subtract")
  /\ method req = "POST"
  /\ registered (declared_type req) = true
  /\ registered (Accept req) = true
  /\ decoded JSON_parse cbor_decode req = None
  /\ state w = st /\ dates w = n.
Proof.
  intros T.
  destruct (seg_is (path req 2) "actions") eqn:E2.
  2:{ exfalso. unfold handle, handler in T. unfold bind in T.
      destruct (route_root_returns req (Str.split "/" (url req))
                  (mkWorld st n freshResponse [])) as [w1 R1].
      rewrite R1 in T.
      destruct (route_properties_returns req (Str.split "/" (url req))
                  (Accept req) w1) as [w2 R2].
      rewrite R2 in T.
      unfold route_actions in T at 1. unfold path in E2. rewrite E2 in T.
      unfold ret in T.
      destruct (route_events_returns req (Str.split "/" (url req))
                  (Accept req) w2) as [w3 R3].
      rewrite R3 in T. discriminate. }
  apply seg_is_eq in E2. split; [exact E2|].
  unfold handle in T. rewrite (handler_below_actions _ _ _ E2) in T.
  rewrite (route_root_before_actions _ _ E2) in T.
  assert (G : forall w0,
            route_actions JSON_parse cbor_decode req (Str.split "/" (url req))
              (Accept req) (declared_type req) now w0 = Thrown w ->
            (path req 3 = Some "add" \/ path req 3 = Some "subtract")
            /\ method req = "POST"
            /\ registered (declared_type req) = true
            /\ registered (Accept req) = true
            /\ decoded JSON_parse cbor_decode req = None
            /\ state w = state w0 /\ dates w = dates w0).
  { intros w0 T0.
    destruct (String.eqb_spec (method req) "POST") as [P|P].
    2:{ apply String.eqb_neq in P. unfold path in *. unfold route_actions in T0.
        rewrite E2, P in T0. discriminate. }
    destruct (registered (declared_type req)) eqn:R1.
    2:{ unfold registered in R1. unfold path in *. unfold route_actions in T0.
        rewrite E2, P, R1 in T0. discriminate. }
    destruct (registered (Accept req)) eqn:R2.
    2:{ unfold registered in R1, R2. unfold path in *.
        unfold route_actions in T0. rewrite E2, P, R1, R2 in T0. discriminate. }
    destruct (seg_is (path req 3) "add" || seg_is (path req 3) "subtract")
      eqn:E3.
    2:{ apply orb_false_iff in E3. destruct E3 as [N1 N2].
        unfold registered in R1, R2. unfold path in *.
        unfold route_actions in T0. rewrite E2, P, R1, R2, N1, N2 in T0.
        discriminate. }
    assert (A3 : path req 3 = Some "add" \/ path req 3 = Some "subtract").
    { apply orb_true_iff in E3. destruct E3 as [E3|E3];
        apply seg_is_eq in E3; auto. }
    rewrite (route_actions_call _ _ _ E2 A3 P R1 R2) in T0.
    destruct (decoded JSON_parse cbor_decode req) as [v|] eqn:D.
    - rewrite (action_endpoint_run _ _ _ _ _ v _ R1 D) in T0. cbv zeta in T0.
      destruct (negb (typeof_number v) || js_not v); discriminate.
    - repeat split; auto.
      all: unfold decoded, codec_of in D; unfold action_endpoint, decode in T0;
        destruct (Str.includes (header_string (declared_type req))
                    "application/json");
        unfold bind, log, throw, ret in T0; rewrite D in T0;
        inversion T0; reflexivity. }
  destruct (seg_is (path req 1) thingName); apply G in T; exact T.
Qed.

(** *** Dates are objects *)

Lemma keeps_below_bind {A B} (m : M A) (k : A -> M B) :
  keeps_below m -> (forall a, keeps_below (k a)) -> keeps_below (bind m k).
Proof.
  intros Hm Hk w H. unfold bind. specialize (Hm w H).
  destruct (m w) as [a w'|w']; simpl in *; [now apply Hk|exact Hm].
Qed.

Lemma preserves_keeps_below {A} (m : M A) : preserves m -> keeps_below m.
Proof.
  intros P w H. destruct (P w) as [E1 E2]. now rewrite E1, E2.
Qed.

Lemma route_actions_keeps_below req segs acc ct now :
  keeps_below (route_actions JSON_parse cbor_decode req segs acc ct now).
Proof.
  intros w H. unfold route_actions, action_endpoint, decode.
  unfold dates_below in *. crunch; simpl in *; auto.
Qed.

Lemma handler_keeps_below (req : Request) (now : Z) :
  keeps_below (handler JSON_parse cbor_decode req now).
Proof.
  unfold handler.
  apply keeps_below_bind;
    [apply preserves_keeps_below, route_root_preserves|intros _].
  apply keeps_below_bind;
    [apply preserves_keeps_below, route_properties_preserves|intros _].
  apply keeps_below_bind; [apply route_actions_keeps_below|intros _].
  apply preserves_keeps_below, route_events_preserves.
Qed.

(** Along any run from the start, the date in [lastChange] is older than
    the next date to be created. *)
Lemma run_keeps_below (history : list (Request * Z)) (sn : State * nat) :
  dates_below sn -> dates_below (run JSON_parse cbor_decode history sn).
Proof.
  revert sn. unfold run.
  induction history as [|rq h IH]; intros sn H; simpl; [exact H|].
  apply IH. unfold serve, handle.
  apply (handler_keeps_below (fst rq) (snd rq)
           (mkWorld (fst sn) (snd sn) freshResponse [])).
  now destruct sn.
Qed.

(** X12: every change gives [lastChange] a new identity.  After any
    history, a request that reaches the assignments leaves a [lastChange]
    that is not [===] the one before, also when the clock reading is the
    same; a [lastChange] subscription that remembers the old value is
    then notified with the new date on its next tick. *)
Theorem change_renews_lastChange (history : list (Request * Z))
    (req : Request) (now : Z) (x : float) (a : string) (r : Response) :
  reaches_assignment JSON_parse cbor_decode req x ->
  let sn := run JSON_parse cbor_decode history (initialState, 0) in
  let w := world_of (handle JSON_parse cbor_decode req now (fst sn) (snd sn)) in
  strict_eq (lastChange (fst sn)) (lastChange (state w)) = false
  /\ (let '(s, _, fx) :=
         tick (mkSubscription WatchLastChange a (lastChange (fst sn)))
           (state w) r in
       writes fx = [encode a (JDate (snd sn) now)]
       /\ old s = JDate (snd sn) now).
Proof.
  intros RA. cbv zeta.
  pose proof (run_keeps_below history (initialState, 0) I) as B.
  destruct (assignment_state req now
              (fst (run JSON_parse cbor_decode history (initialState, 0)))
              (snd (run JSON_parse cbor_decode history (initialState, 0)))
              x RA) as [S1 _].
  rewrite S1. unfold dates_below in B. unfold tick. simpl.
  destruct (lastChange (fst (run JSON_parse cbor_decode history (initialState, 0))))
    as [| | | | |ref time|]; simpl; try (split; [|split]; reflexivity).
  assert (E : Nat.eqb ref (snd (run JSON_parse cbor_decode history (initialState, 0)))
              = false) by (apply Nat.eqb_neq; lia).
  rewrite E. simpl. split; [|split]; reflexivity.
Qed.
End ListenerMore.

(** *** Successive ticks *)

Lemma writes_app (fx fx' : list Effect) :
  writes (fx ++ fx') = writes fx ++ writes fx'.
Proof. unfold writes. apply flat_map_app. Qed.

(** Ticks that find the remembered value [===] the live one write nothing
    and leave the subscription as it is. *)
Lemma ticks_quiet (s : Subscription) (r : Response) (states : list State)
    (v : jsval) :
  Forall (fun st => live (watched s) st = v) states ->
  strict_eq (old s) v = true ->
  let '(s', _, fx) := ticks s r states in writes fx = [] /\ s' = s.
Proof.
  intros F E. revert r. induction F as [|st rest L F IH]; intros r; simpl.
  - split; reflexivity.
  - unfold tick. rewrite L, E. simpl.
    specialize (IH r). destruct (ticks s r rest) as [[s2 r2] fx2].
    destruct IH as [W ->]. split; [|reflexivity].
    rewrite writes_app, W. destruct (watched s); reflexivity.
Qed.

(** X13: while the live value stays the same (and is [===] itself), a
    subscription sends at most one notification however many ticks run:
    that value once, on the first tick, when it differs from the
    remembered one, and nothing when it does not. *)
Theorem one_notification_per_change (s : Subscription) (r : Response)
    (st : State) (states : list State) (v : jsval) :
  Forall (fun st => live (watched s) st = v) (st :: states) ->
  strict_eq v v = true ->
  let '(s', _, fx) := ticks s r (st :: states) in
  writes fx = (if strict_eq (old s) v then [] else [encode (sub_accept s) v])
  /\ old s' = (if strict_eq (old s) v then old s else v).
Proof.
  intros F V. destruct (strict_eq (old s) v) eqn:E.
  - pose proof (ticks_quiet s r (st :: states) v F E) as Q.
    destruct (ticks s r (st :: states)) as [[s' r'] fx].
    destruct Q as [W ->]. split; [exact W|reflexivity].
  - inversion F as [|? ? L F']; subst. simpl. unfold tick. rewrite E. simpl.
    pose proof (ticks_quiet
                  (mkSubscription (watched s) (sub_accept s) (live (watched s) st))
                  (mkResponse (code r) (Some 205%Z)) states
                  (live (watched s) st) F' V) as Q.
    destruct (ticks _ _ states) as [[s2 r2] fx2].
    destruct Q as [W ->]. simpl. split; [|reflexivity].
    rewrite writes_app, writes_app, W. destruct (watched s); reflexivity.
Qed.

(** *** A result that is not a number *)

Lemma SFcompare_refl (f : spec_float) :
  f <> S754_nan -> SFcompare f f = Some Eq.
Proof.
  destruct f as [b|b| |b m e]; simpl; intros H.
  - reflexivity.
  - destruct b; reflexivity.
  - congruence.
  - destruct b; rewrite ?Z.compare_refl, ?Pos.compare_refl; try reflexivity.
    all: change (PosDef.Pos.compare_cont Eq m m) with (Pos.compare m m);
      rewrite Pos.compare_refl; reflexivity.
Qed.

(** Nothing is [===] a NaN. *)
Lemma eqb_nan_r (x y : float) :
  PrimFloat.is_nan x = true -> PrimFloat.eqb y x = false.
Proof.
  intros H. unfold PrimFloat.is_nan in H. apply negb_true_iff in H.
  rewrite eqb_spec in *. unfold SFeqb in *.
  destruct (Prim2SF x) eqn:N.
  3:{ destruct (Prim2SF y); reflexivity. }
  all: rewrite SFcompare_refl in H by congruence; discriminate.
Qed.

(** X14: once [result] is NaN, every tick of a [result] or [update]
    subscription sends a notification, whatever value it remembers:
    the comparison [oldResult !== result] never fails for NaN. *)
Theorem nan_result_is_sent_on_every_tick (s : Subscription) (st : State)
    (r : Response) :
  watched s <> WatchLastChange ->
  PrimFloat.is_nan (result st) = true ->
  let '(s', _, fx) := tick s st r in
  writes fx = [encode (sub_accept s) (JNum (result st))]
  /\ old s' = JNum (result st).
Proof.
  intros W N. unfold tick.
  assert (E : strict_eq (old s) (live (watched s) st) = false).
  { destruct (watched s); try congruence; simpl;
      destruct (old s); simpl; auto using eqb_nan_r. }
  rewrite E. simpl. destruct (watched s); try congruence; split; reflexivity.
Qed.

(** X11: under the registry test the substring tests are exact: a
    registered body type selects the JSON decoder when it is
    [application/json] and the CBOR decoder when it is
    [application/cbor]; a registered accept header selects the encoder in
    the same way. *)
Theorem registered_types_select_codecs (req : Request) :
  registered (declared_type req) = true ->
  registered (Accept req) = true ->
  ((declared_type req = Some "application/json" /\ codec_of req = UseJSON) \/
   (declared_type req = Some "application/cbor" /\ codec_of req = UseCBOR))
  /\ ((Accept req = Some "application/json" /\
       forall v, encode (header_string (Accept req)) v = JSON_stringify v) \/
      (Accept req = Some "application/cbor" /\
       forall v, encode (header_string (Accept req)) v = cbor_encode v)).
Proof.
  assert (R : forall h, registered h = true ->
                h = Some "application/json" \/ h = Some "application/cbor").
  { intros [s|] H; [|discriminate]. unfold registered in H. simpl in H.
    apply orb_true_iff in H. destruct H as [H|H].
    - apply String.eqb_eq in H. left. now subst.
    - rewrite orb_false_r in H. apply String.eqb_eq in H. right. now subst. }
  intros R1 R2. unfold codec_of.
  destruct (R _ R1) as [E1|E1]; destruct (R _ R2) as [E2|E2];
    rewrite E1, E2; split; auto.
Qed.

(** ** Further properties of the form expansion *)

Lemma fold_left_Forall {A B} (P : B -> Prop) (step : list B -> A -> list B)
    (l : list A) (init : list B) :
  Forall P init ->
  (forall acc x, In x l -> Forall P acc -> Forall P (step acc x)) ->
  Forall P (fold_left step l init).
Proof.
  revert init. induction l as [|x l IH]; intros init H S; simpl; [exact H|].
  apply IH.
  - apply S; [now left|exact H].
  - intros acc y Hy. apply S. now right.
Qed.

Lemma Forall_snoc {A} (P : A -> Prop) (l : list A) (x : A) :
  Forall P l -> P x -> Forall P (l ++ [x]).
Proof. intros H Hx. apply Forall_app. split; [exact H|now constructor]. Qed.

(** The inner loop of the action expansion on a form that uses the
    registry. *)
Lemma accept_variants_use_registry (fi : list (string * Z)) (f : Form)
    (forms : list Form) :
  uses_registry fi f ->
  Forall (uses_registry fi) forms ->
  Forall (uses_registry fi) (accept_variants fi f forms).
Proof.
  intros [F1 _] H. unfold accept_variants.
  apply fold_left_Forall; [exact H|].
  intros acc [identifier code] I Hacc.
  destruct (negb (cov_accept f =? code)%Z); [|exact Hacc].
  apply Forall_snoc; [exact Hacc|]. repeat split; assumption.
Qed.

(** X15: whatever the registry, as long as it holds the default entry:
    every form of a property, an action or an event names content types
    of the registry with their own codes, for the request and for the
    response, and its [cov:accept] is the code of its response type. *)
Theorem forms_use_registry_entries (fi : list (string * Z)) (key : string) :
  In ("application/json", 50%Z) fi ->
  Forall (uses_registry fi) (property_forms fi key)
  /\ Forall (uses_registry fi) (action_forms fi key)
  /\ Forall (uses_registry fi) (event_forms fi key).
Proof.
  intros D.
  assert (B : forall f, contentType f = "application/json" ->
                cov_contentFormat f = 50%Z ->
                response f = mkFormResponse "application/json" 50 ->
                cov_accept f = 50%Z -> uses_registry fi f).
  { intros f E1 E2 E3 E4. unfold uses_registry. rewrite E1, E2, E3, E4.
    repeat split; assumption. }
  split; [|split].
  - unfold property_forms. apply fold_left_Forall.
    + repeat constructor; apply B; reflexivity.
    + intros acc [identifier code] I Hacc.
      destruct (negb _); [|exact Hacc].
      apply Forall_app. split; [exact Hacc|].
      repeat constructor; assumption.
  - unfold action_forms. apply fold_left_Forall.
    + repeat constructor; apply B; reflexivity.
    + intros acc [identifier code] I Hacc.
      destruct (negb _).
      * apply accept_variants_use_registry.
        -- repeat split; assumption.
        -- apply Forall_snoc; [exact Hacc|]. repeat split; assumption.
      * apply accept_variants_use_registry; [|exact Hacc].
        apply B; reflexivity.
  - unfold event_forms. apply fold_left_Forall.
    + repeat constructor; apply B; reflexivity.
    + intros acc [identifier code] I Hacc.
      destruct (negb _); [|exact Hacc].
      apply Forall_snoc; [exact Hacc|]. repeat split; assumption.
Qed.

Lemma accept_variants_keep (P : Form -> Prop) (fi : list (string * Z))
    (f : Form) (forms : list Form) :
  (forall identifier code, P (set_accept identifier code f)) ->
  Forall P forms -> Forall P (accept_variants fi f forms).
Proof.
  intros K H. unfold accept_variants. apply fold_left_Forall; [exact H|].
  intros acc [identifier code] _ Hacc.
  destruct (negb _); [|exact Hacc]. apply Forall_snoc; [exact Hacc|apply K].
Qed.

(** X16: whatever the registry, the forms of one affordance differ only
    in their content types.  All forms of a property have its path and
    GET, and are either read forms or observe forms with the [cov:observe]
    subprotocol; all forms of an action have its path, POST and
    [invokeaction], without subprotocol; all forms of an event have its
    path, GET, the subscribe operations and the subprotocol.  Forms of
    properties and events answer in the type they name; only actions mix
    types. *)
Theorem forms_differ_only_in_content_types (fi : list (string * Z))
    (key : string) :
  Forall (fun f =>
            href f = ("properties/" ++ key)%string /\ cov_method f = "GET" /\
            contentType f = resp_contentType (response f) /\
            ((op f = OpString "readproperty" /\ subprotocol f = None) \/
             (op f = observe_ops /\ subprotocol f = Some "cov:observe")))
         (property_forms fi key)
  /\ Forall (fun f =>
               href f = ("actions/" ++ key)%string /\ cov_method f = "POST" /\
               op f = OpString "invokeaction" /\ subprotocol f = None)
            (action_forms fi key)
  /\ Forall (fun f =>
               href f = ("events/" ++ key)%string /\ cov_method f = "GET" /\
               contentType f = resp_contentType (response f) /\
               op f = subscribe_ops /\ subprotocol f = Some "cov:observe")
            (event_forms fi key).
Proof.
  split; [|split].
  - assert (R : forall f, href f = ("properties/" ++ key)%string ->
                  cov_method f = "GET" ->
                  contentType f = resp_contentType (response f) ->
                  op f = OpString "readproperty" -> subprotocol f = None ->
                  Forall (fun f =>
                    href f = ("properties/" ++ key)%string /\
                    cov_method f = "GET" /\
                    contentType f = resp_contentType (response f) /\
                    ((op f = OpString "readproperty" /\ subprotocol f = None) \/
                     (op f = observe_ops /\
                      subprotocol f = Some "cov:observe")))
                    [f; set_subprotocol "cov:observe" (set_op observe_ops f)]).
    { intros f E1 E2 E3 E4 E5.
      constructor; [auto 10|]. constructor; [|constructor].
      simpl. auto 10. }
    unfold property_forms. apply fold_left_Forall.
    + apply R; reflexivity.
    + intros acc [identifier code] _ Hacc.
      destruct (negb _); [|exact Hacc].
      apply Forall_app. split; [exact Hacc|]. apply R; reflexivity.
  - unfold action_forms. apply fold_left_Forall.
    + repeat constructor.
    + intros acc [identifier code] _ Hacc.
      destruct (negb _); apply accept_variants_keep;
        try (intros; repeat split; reflexivity); try exact Hacc.
      apply Forall_snoc; [exact Hacc|]. repeat split.
  - unfold event_forms. apply fold_left_Forall.
    + repeat constructor.
    + intros acc [identifier code] _ Hacc.
      destruct (negb _); [|exact Hacc].
      apply Forall_snoc; [exact Hacc|]. repeat split.
Qed.

Lemma flat_map_singleton {A B} (f : A -> B) (l : list A) :
  flat_map (fun x => [f x]) l = map f l.
Proof. induction l as [|x l IH]; simpl; [reflexivity|now rewrite IH]. Qed.

Lemma filter_flat_map {A B} (p : B -> bool) (g : A -> list B) (l : list A) :
  filter p (flat_map g l) = flat_map (fun x => filter p (g x)) l.
Proof.
  induction l as [|x l IH]; simpl; [reflexivity|now rewrite filter_app, IH].
Qed.

(** One element per entry, the default entry's one moved to the front: a
    rearrangement of the identifiers. *)
Lemma default_first_identifiers (fi : list (string * Z)) :
  NoDup (map fst fi) ->
  In ("application/json", 50%Z) fi ->
  Permutation
    ("application/json" ::
     flat_map (fun e => if negb (String.eqb "application/json" (fst e))
                        then [fst e] else []) fi)
    (map fst fi).
Proof.
  intros N D. rewrite <- flat_map_singleton.
  apply default_pair_joins_its_row; [exact N|exact D|].
  intros e _. destruct (String.eqb_spec "application/json" (fst e)) as [E|E];
    [now rewrite <- E|reflexivity].
Qed.

Section ReadForms.
Local Opaque String.eqb.
Variable fi : list (string * Z).
Variable key : string.

Lemma property_forms_push :
  property_forms fi key =
  let newFormRead :=
    set_op (OpString "readproperty")
      (set_method "GET" (set_href ("properties/" ++ key) defaultForm)) in
  [newFormRead; set_subprotocol "cov:observe" (set_op observe_ops newFormRead)]
  ++ flat_map
       (fun e => if negb (String.eqb "application/json" (fst e))
                 then [set_format (fst e) (snd e) newFormRead;
                       set_subprotocol "cov:observe"
                         (set_op observe_ops
                            (set_format (fst e) (snd e) newFormRead))]
                 else []) fi.
Proof.
  cbv zeta. unfold property_forms. apply fold_left_push.
  intros acc [identifier code]. simpl.
  destruct (negb ("application/json" =? identifier));
    [reflexivity|now rewrite app_nil_r].
Qed.

Lemma event_forms_push :
  event_forms fi key =
  let newForm :=
    set_subprotocol "cov:observe"
      (set_op subscribe_ops
         (set_method "GET" (set_href ("events/" ++ key) defaultForm))) in
  [newForm]
  ++ flat_map
       (fun e => if negb (String.eqb "application/json" (fst e))
                 then [set_format (fst e) (snd e) newForm] else []) fi.
Proof.
  cbv zeta. unfold event_forms. apply fold_left_push.
  intros acc [identifier code]. simpl.
  destruct (negb ("application/json" =? identifier));
    [reflexivity|now rewrite app_nil_r].
Qed.

(** X17: for a registry with distinct identifiers that holds the default
    entry, an event has exactly one form per identifier, and a property
    exactly one read form and one observe form per identifier. *)
Theorem one_read_form_per_identifier :
  NoDup (map fst fi) ->
  In ("application/json", 50%Z) fi ->
  Permutation (map contentType (event_forms fi key)) (map fst fi)
  /\ Permutation
       (map contentType (filter is_observe_form (property_forms fi key)))
       (map fst fi)
  /\ Permutation
       (map contentType
          (filter (fun f => negb (is_observe_form f)) (property_forms fi key)))
       (map fst fi).
Proof.
  intros N D. pose proof (default_first_identifiers fi N D) as P.
  split; [|split]; rewrite <- P.
  - rewrite event_forms_push. cbv zeta. simpl app. rewrite map_cons.
    rewrite map_flat_map. apply perm_skip.
    erewrite flat_map_ext; [reflexivity|].
    intros e. simpl. destruct (negb _); reflexivity.
  - rewrite property_forms_push. cbv zeta. simpl app. simpl filter.
    rewrite filter_flat_map, map_cons, map_flat_map. apply perm_skip.
    erewrite flat_map_ext; [reflexivity|].
    intros e. simpl. destruct (negb _); reflexivity.
  - rewrite property_forms_push. cbv zeta. simpl app. simpl filter.
    rewrite filter_flat_map, map_cons, map_flat_map. apply perm_skip.
    erewrite flat_map_ext; [reflexivity|].
    intros e. simpl. destruct (negb _); reflexivity.
Qed.
End ReadForms.

Lemma offers_pair (a b : string) (f : Form) :
  offers a b f = true <-> form_pair f = (a, b).
Proof.
  unfold offers, form_pair. rewrite andb_true_iff, !String.eqb_eq.
  split; [intros [-> ->]; reflexivity|intros E; inversion E; auto].
Qed.

Lemma filter_none {A} (p : A -> bool) (l : list A) :
  (forall x, In x l -> p x = false) -> filter p l = [].
Proof.
  induction l as [|x l IH]; intros H; simpl; [reflexivity|].
  rewrite (H x (or_introl eq_refl)). apply IH. intros y Hy. apply H. now right.
Qed.

(** Among elements with distinct images, exactly one has a given image
    that occurs. *)
Lemma one_with_image {A B} (g : A -> B) (p : A -> bool) (y : B) (l : list A) :
  (forall x, p x = true <-> g x = y) ->
  NoDup (map g l) -> In y (map g l) ->
  List.length (filter p l) = 1.
Proof.
  intros S. induction l as [|x l IH]; intros N H; [contradiction|].
  simpl in N. inversion N as [|? ? Nx Nl]; subst. simpl.
  destruct (p x) eqn:E.
  - apply S in E. rewrite filter_none; [reflexivity|].
    intros z Hz. destruct (p z) eqn:Ez; [|reflexivity].
    apply S in Ez. exfalso. apply Nx. rewrite E, <- Ez. now apply in_map.
  - destruct H as [H|H]; [|now apply IH].
    apply S in H. congruence.
Qed.

(** X18: for any registry with distinct identifiers and distinct codes
    that holds the default entry, an action offers every pairing of a
    registered body type with a registered response type in exactly one
    form. *)
Theorem every_pairing_offered_once (fi : list (string * Z)) (key : string)
    (a b : string) :
  NoDup (map fst fi) ->
  NoDup (map snd fi) ->
  In ("application/json", 50%Z) fi ->
  In a (map fst fi) ->
  In b (map fst fi) ->
  List.length (filter (offers a b) (action_forms fi key)) = 1.
Proof.
  intros N1 N2 D Ha Hb.
  destruct (action_forms_cover_any_registry fi N1 N2 D key) as [P [N _]].
  apply (one_with_image form_pair (offers a b) (a, b)).
  - intros f. apply offers_pair.
  - exact N.
  - apply (Permutation_in _ (Permutation_sym P)). now apply in_prod.
Qed.

(** ** The test client *)

Module ClientFacts.
Import Client.

Section Helpers.
Variable Net : Type.
Variable fetch : HttpRequest -> Net -> option HttpResponse * Net.
Variable JSON_parse : string -> option jsval.
Variable cbor_decode : string -> option jsval.

(** A helper sends exactly one request, the one it builds, and writes
    nothing on the console, whether it resolves or not. *)
Lemma get_helper_sends_one (endPoint acceptType : string) (s : Session Net) :
  let s1 := snd (get_helper Net fetch JSON_parse cbor_decode endPoint acceptType s) in
  sent Net s1 = sent Net s ++ [get_request endPoint acceptType]
  /\ console Net s1 = console Net s.
Proof.
  cbv zeta. unfold get_helper, andThen, do_fetch, decode_response.
  destruct (fetch _ _) as [[res|] net']; simpl; [|auto].
  destruct (res_content_type res) as [t|]; simpl; [|auto].
  destruct (Str.includes t "application/json");
    [destruct (JSON_parse _); simpl; auto|].
  destruct (Str.includes t "application/cbor");
    [destruct (cbor_decode _); simpl; auto|simpl; auto].
Qed.

Lemma post_helper_sends_one (endPoint : string) (number : jsval)
    (contentType acceptType : string) (s : Session Net) :
  let s1 := snd (post_helper Net fetch JSON_parse cbor_decode endPoint number
                   contentType acceptType s) in
  sent Net s1 = sent Net s ++ [post_request endPoint number contentType acceptType]
  /\ console Net s1 = console Net s.
Proof.
  cbv zeta. unfold post_helper, andThen, do_fetch, decode_response.
  destruct (fetch _ _) as [[res|] net']; simpl; [|auto].
  destruct (ok res); simpl; [|auto].
  destruct (res_content_type res) as [t|]; simpl; [|auto].
  destruct (Str.includes t "application/json");
    [destruct (JSON_parse _); simpl; auto|].
  destruct (Str.includes t "application/cbor");
    [destruct (cbor_decode _); simpl; auto|simpl; auto].
Qed.

(** X19: the status of a response matters to the POST helpers only.  On a
    response that is not [ok], [addNumber] and [subtractNumber] reject
    with the response text and decode nothing; the GET helpers never look
    at [res.ok], so on the same response, when it carries JSON that parses
    to [v], they resolve with [v]. *)
Theorem only_post_helpers_check_status (postEndPoint getEndPoint : string)
    (number : jsval) (contentType acceptType : string) (s : Session Net)
    (res : HttpResponse) (net1 net2 : Net) (t : string) (v : jsval) :
  ok res = false ->
  res_content_type res = Some t ->
  Str.includes t "application/json" = true ->
  JSON_parse (data res) = Some v ->
  fetch (post_request postEndPoint number contentType acceptType) (net Net s)
    = (Some res, net1) ->
  fetch (get_request getEndPoint acceptType) (net Net s) = (Some res, net2) ->
  fst (post_helper Net fetch JSON_parse cbor_decode postEndPoint number
         contentType acceptType s) = inr (ErrorText (data res))
  /\ fst (get_helper Net fetch JSON_parse cbor_decode getEndPoint acceptType s)
     = inl v.
Proof.
  intros O T I P F1 F2.
  unfold post_helper, get_helper, andThen, do_fetch, decode_response.
  rewrite F1, F2, O, T. simpl. rewrite I, P. split; reflexivity.
Qed.

(** One logged call works through its one request. *)
Lemma logged_works_through (label : string) (req : HttpRequest)
    (call : C Net jsval) :
  (forall s, sent Net (snd (call s)) = sent Net s ++ [req]
             /\ console Net (snd (call s)) = console Net s) ->
  works_through Net [req] (logged Net label call).
Proof.
  intros H s. specialize (H s). unfold logged, andThen, console_log.
  destruct (call s) as [[v|e] s1]; simpl in *; destruct H as [H1 H2].
  - split; [exact H1|]. exists [LogValue label v].
    rewrite H2. repeat split. repeat constructor.
  - exists 1, []. rewrite app_nil_r. repeat split; auto. 
Qed.

(** Sequencing extends the list worked through. *)
Lemma works_through_then (req : HttpRequest) (reqs : list HttpRequest)
    (m1 m2 : C Net unit) :
  works_through Net [req] m1 ->
  works_through Net reqs m2 ->
  works_through Net (req :: reqs) (andThen Net m1 (fun _ => m2)).
Proof.
  intros H1 H2 s. specialize (H1 s). unfold andThen.
  destruct (m1 s) as [[[]|e] s1].
  - destruct H1 as [S1 [v1 [C1 [L1 F1]]]]. specialize (H2 s1).
    destruct (m2 s1) as [[[]|e] s2].
    + destruct H2 as [S2 [v2 [C2 [L2 F2]]]]. split.
      * rewrite S2, S1, <- app_assoc. reflexivity.
      * exists (v1 ++ v2). rewrite C2, C1, <- app_assoc, length_app, L1, L2.
        repeat split. now apply Forall_app.
    + destruct H2 as [k [v2 [K [S2 [C2 [L2 F2]]]]]].
      exists (S k), (v1 ++ v2). simpl in *.
      rewrite S2, S1, C2, C1, <- !app_assoc, length_app, L1, L2.
      repeat split; try lia. now apply Forall_app.
  - destruct H1 as [k [v1 [K [S1 [C1 [L1 F1]]]]]]. simpl in K.
    assert (k = 1) by lia. subst k.
    exists 1, v1. simpl in *. repeat split; auto; lia.
Qed.

(** X20: [runCalculator] sends the seven requests of its script in order
    and stops at the first helper that rejects: after [k] requests it
    has logged one value for each of the first [k - 1] and then the error,
    or, when all seven resolve, seven values and no error.  No request is
    sent after a failure. *)
Theorem runCalculator_stops_at_first_failure (s : Session Net) :
  let s1 := runCalculator Net fetch JSON_parse cbor_decode s in
  exists k values,
    1 <= k <= 7 /\
    sent Net s1 = sent Net s ++ firstn k script /\
    Forall is_value values /\
    ((k = 7 /\ List.length values = 7 /\
      console Net s1 = console Net s ++ values) \/
     (List.length values = k - 1 /\
      exists e, console Net s1 = console Net s ++ values ++ [LogError e])).
Proof.
  cbv zeta.
  assert (W : works_through Net script
                (calculation Net fetch JSON_parse cbor_decode)).
  { unfold script, calculation.
    repeat (apply works_through_then;
            [apply logged_works_through; intros s0;
             first [apply get_helper_sends_one|apply post_helper_sends_one]|]).
    apply logged_works_through. intros s0. apply get_helper_sends_one. }
  unfold runCalculator. specialize (W s).
  destruct (calculation Net fetch JSON_parse cbor_decode s) as [[[]|e] s1].
  - destruct W as [S1 [values [C1 [L1 F1]]]].
    exists 7, values. split; [lia|]. split; [exact S1|]. split; [exact F1|].
    left. auto.
  - destruct W as [k [values [K [S1 [C1 [L1 F1]]]]]].
    exists k, values. simpl in K. split; [lia|]. split; [exact S1|].
    split; [exact F1|].
    right. split; [exact L1|]. exists e. simpl. now rewrite C1, app_assoc.
Qed.
End Helpers.

End ClientFacts.

(** ** Further runs on concrete requests *)

(** X1 on a DELETE of the [result] property. *)
Lemma method_not_allowed_witness :
  Demo.handle Sample.deleteResult 7 initialState 0 = refused 405 initialState 0.
Proof.
  refine (method_not_allowed Demo.parse Demo.parse Sample.deleteResult 7
            initialState 0 _ _).
  - vm_compute; reflexivity.
  - right. left. split; vm_compute; [reflexivity|discriminate].
Defined.

(** X2 on a POST to [events/update]. *)
Lemma unanswered_request_witness :
  Demo.handle Sample.postToEvent 7 initialState 0
  = Returned tt (mkWorld initialState 0 freshResponse []).
Proof.
  refine (unanswered_request Demo.parse Demo.parse Sample.postToEvent 7
            initialState 0 _ _ _ _ _).
  - vm_compute; reflexivity.
  - vm_compute; reflexivity.
  - vm_compute; discriminate.
  - vm_compute; discriminate.
  - intros _. vm_compute; discriminate.
Defined.

(** X3 on a read of an unknown property with accept [text/plain]. *)
Lemma not_acceptable_read_witness :
  Demo.handle Sample.readUnknownAsPlain 7 initialState 0
  = Returned tt
      (mkWorld initialState 0 (status_only 406) [ResEnd (status_only 406) None]).
Proof.
  refine (not_acceptable_read Demo.parse Demo.parse Sample.readUnknownAsPlain 7
            initialState 0 _ _ _ _).
  - vm_compute; reflexivity.
  - vm_compute; reflexivity.
  - vm_compute; reflexivity.
  - left. vm_compute; reflexivity.
Defined.

(** X4 on a read of [result] as CBOR when it is 10. *)
Lemma property_read_witness :
  Demo.handle Sample.readResult 7 (mkState 10%float (JDate 0 5)) 1
  = Returned tt
      (mkWorld (mkState 10%float (JDate 0 5)) 1 freshResponse
         [ResSetOption "Content-Format" "application/cbor";
          ResEnd freshResponse (Some (cbor_encode (JNum 10%float)))]).
Proof.
  refine (property_read Demo.parse Demo.parse "result" WatchResult
            Sample.readResult 7 (mkState 10%float (JDate 0 5)) 1 _ _ _ _ _).
  - left. reflexivity.
  - demo_call.
  - vm_compute; reflexivity.
  - vm_compute; reflexivity.
  - vm_compute; reflexivity.
Defined.

(** X5 on an [add] of 10, which changes the accumulator, and an [add] of
    0, which does not. *)
Lemma accumulator_changes_exactly_on_valid_calls_witness :
  state (world_of (Demo.handle Demo.add10 7 initialState 0))
    = mkState 10%float (JDate 0 7)
  /\ state (world_of (Demo.handle Demo.add0 7 initialState 0)) = initialState.
Proof.
  split.
  - refine (proj1 (proj1 (accumulator_changes_exactly_on_valid_calls
                            Demo.parse Demo.parse Demo.add10 7 initialState 0)
                     10%float _)).
    demo_call.
  - refine (proj1 (proj2 (accumulator_changes_exactly_on_valid_calls
                            Demo.parse Demo.parse Demo.add0 7 initialState 0)
                     _)).
    intros x [_ [_ [_ [_ [_ [D V]]]]]]. vm_compute in D.
    inversion D; subst. discriminate.
Defined.

(** X6 on a valid [add] of 10 sent to [/other]. *)
Lemma wrong_name_call_is_carried_out_witness :
  Demo.handle Sample.strayAdd 7 initialState 0
  = Returned tt
      (mkWorld (mkState 10%float (JDate 0 7)) 1 (status 404)
         [ResEnd (status 404) None;
          ResSetOption "Content-Format" "application/cbor";
          Decode UseJSON "10";
          ResEnd (status 404) (Some (cbor_encode (JNum 10%float)))]).
Proof.
  refine (wrong_name_call_is_carried_out Demo.parse Demo.parse Sample.strayAdd
            7 initialState 0 10%float _ _).
  - vm_compute; discriminate.
  - demo_call.
Defined.

(** X7 on a [subtract] of 5 from 10, CBOR in and JSON out. *)
Lemma valid_call_outcome_witness :
  Demo.handle Demo.subtract5 9 (mkState 10%float (JDate 0 7)) 1
  = Returned tt
      (mkWorld (mkState 5%float (JDate 1 9)) 2 freshResponse
         [ResSetOption "Content-Format" "application/json";
          Decode UseCBOR "5";
          ResEnd freshResponse (Some (JSON_stringify (JNum 5%float)))]).
Proof.
  refine (valid_call_outcome Demo.parse Demo.parse Demo.subtract5 9
            (mkState 10%float (JDate 0 7)) 1 5%float _ _).
  - vm_compute; reflexivity.
  - demo_call.
Defined.

(** X8 on an observe request for [result]. *)
Lemma at_most_one_answer_witness :
  let fx :=
    effects (world_of (Demo.handle Sample.observeResult 7 initialState 0)) in
  List.length (ends fx) + List.length (intervals fx) <= 1.
Proof.
  refine (at_most_one_answer Demo.parse Demo.parse Sample.observeResult
            7 initialState 0 _).
  vm_compute; reflexivity.
Defined.

(** X9 on an [add] whose [Content-Type] is JSON and whose
    [Content-Format] claims [text/plain]. *)
Lemma content_type_takes_precedence_witness :
  Demo.handle (with_Content_Format Demo.plain Sample.typedAdd) 7 initialState 0
  = Demo.handle Sample.typedAdd 7 initialState 0.
Proof.
  refine (content_type_takes_precedence Demo.parse Demo.parse Sample.typedAdd
            "application/json" Demo.plain 7 initialState 0 _ _).
  - reflexivity.
  - discriminate.
Defined.

(** X10 on an [add] of 10 followed by a read of [result] as CBOR. *)
Lemma read_after_call_witness :
  let w1 := world_of (Demo.handle Demo.add10 7 initialState 0) in
  let w2 := world_of (Demo.handle Sample.readResult 8 (state w1) (dates w1)) in
  ends (effects w2) = [(freshResponse, Some (cbor_encode (JNum 10%float)))]
  /\ state w2 = state w1.
Proof.
  refine (read_after_call Demo.parse Demo.parse Demo.add10 Sample.readResult
            7 8 initialState 0 10%float "result" WatchResult _ _ _ _ _ _).
  - demo_call.
  - left. reflexivity.
  - demo_call.
  - vm_compute; reflexivity.
  - vm_compute; reflexivity.
  - vm_compute; reflexivity.
Defined.

(** X11 on the [subtract] of the client script: CBOR in, JSON out. *)
Lemma registered_types_select_codecs_witness :
  codec_of Demo.subtract5 = UseCBOR
  /\ forall v, encode (header_string (Accept Demo.subtract5)) v = JSON_stringify v.
Proof.
  assert (R1 : registered (declared_type Demo.subtract5) = true)
    by (vm_compute; reflexivity).
  assert (R2 : registered (Accept Demo.subtract5) = true)
    by (vm_compute; reflexivity).
  destruct (registered_types_select_codecs Demo.subtract5 R1 R2)
    as [[[E _]|[_ C]] [[_ J]|[E' _]]];
    try (vm_compute in E; discriminate);
    try (vm_compute in E'; discriminate).
  split; assumption.
Defined.

(** X12 on an [add] and a [subtract] that read the same clock value. *)
Lemma change_renews_lastChange_witness :
  let sn := Demo.run [(Demo.add10, 1000%Z)] (initialState, 0) in
  let w := world_of (Demo.handle Demo.subtract5 1000 (fst sn) (snd sn)) in
  strict_eq (lastChange (fst sn)) (lastChange (state w)) = false.
Proof.
  refine (proj1 (change_renews_lastChange Demo.parse Demo.parse
                   [(Demo.add10, 1000%Z)] Demo.subtract5 1000 5%float
                   "application/json" freshResponse _)).
  demo_call.
Defined.

(** X13 on three ticks after [result] went from 0 to 10. *)
Lemma one_notification_per_change_witness :
  let st := mkState 10%float (JDate 0 7) in
  let '(s, _, fx) := ticks Sample.watcher freshResponse [st; st; st] in
  writes fx = [cbor_encode (JNum 10%float)] /\ old s = JNum 10%float.
Proof.
  refine (one_notification_per_change Sample.watcher freshResponse
            (mkState 10%float (JDate 0 7))
            [mkState 10%float (JDate 0 7); mkState 10%float (JDate 0 7)]
            (JNum 10%float) _ _).
  - repeat constructor.
  - reflexivity.
Defined.

(** X14 on a [result] that is infinity minus infinity, remembered by the
    subscription already. *)
Lemma nan_result_is_sent_on_every_tick_witness :
  let st := mkState (infinity - infinity)%float (JDate 1 7) in
  let '(s, _, fx) :=
    tick (mkSubscription WatchResult "application/json" (JNum (result st)))
      st freshResponse in
  writes fx = [JSON_stringify (JNum (result st))]
  /\ old s = JNum (result st).
Proof.
  refine (nan_result_is_sent_on_every_tick
            (mkSubscription WatchResult "application/json"
               (JNum (infinity - infinity)%float))
            (mkState (infinity - infinity)%float (JDate 1 7)) freshResponse
            _ _).
  - discriminate.
  - reflexivity.
Defined.

(** X21 on an [add] whose body is the empty string. *)
Lemma listener_throws_only_while_decoding_witness :
  decoded Demo.parse Demo.parse Sample.emptyAdd = None
  /\ state (world_of (Demo.handle Sample.emptyAdd 7 initialState 0))
     = initialState.
Proof.
  assert (T : Demo.handle Sample.emptyAdd 7 initialState 0 =
              Thrown
                (mkWorld initialState 0 freshResponse
                   [ResSetOption "Content-Format" "application/json";
                    Decode UseJSON ""]))
    by (vm_compute; reflexivity).
  destruct (listener_throws_only_while_decoding Demo.parse Demo.parse
              Sample.emptyAdd 7 initialState 0 _ T)
    as [_ [_ [_ [_ [_ [D [S _]]]]]]].
  split; [exact D|]. rewrite T. exact S.
Defined.

(** X15 on the forms over a registry of three types. *)
Lemma forms_use_registry_entries_witness :
  Forall (uses_registry Sample.threeTypes)
    (action_forms Sample.threeTypes "add").
Proof.
  refine (proj1 (proj2 (forms_use_registry_entries Sample.threeTypes "add" _))).
  left. reflexivity.
Defined.

(** X17 on the event [update] over a registry of three types. *)
Lemma one_read_form_per_identifier_witness :
  Permutation (map contentType (event_forms Sample.threeTypes "update"))
    (map fst Sample.threeTypes).
Proof.
  refine (proj1 (one_read_form_per_identifier Sample.threeTypes "update" _ _)).
  - repeat constructor; simpl; intuition discriminate.
  - left. reflexivity.
Defined.

(** X18 on the pairing of a [text/plain] body with a CBOR response over a
    registry of three types. *)
Lemma every_pairing_offered_once_witness :
  List.length
    (filter (offers "text/plain" "application/cbor")
       (action_forms Sample.threeTypes "add")) = 1.
Proof.
  refine (every_pairing_offered_once Sample.threeTypes "add"
            "text/plain" "application/cbor" _ _ _ _ _).
  - repeat constructor; simpl; intuition discriminate.
  - repeat constructor; simpl; intuition discriminate.
  - left. reflexivity.
  - simpl. auto.
  - simpl. auto.
Defined.

(** X19 on a server that answers 406 with the JSON text [10]. *)
Lemma only_post_helpers_check_status_witness :
  fst (Client.addNumber nat Sample.refusing Demo.parse Demo.parse
         (JNum 10%float) "json" "cbor" (Client.mkSession nat 0 [] []))
    = inr (Client.ErrorText "10")
  /\ fst (Client.getCurrentResult nat Sample.refusing Demo.parse Demo.parse
            "cbor" (Client.mkSession nat 0 [] []))
     = inl (JNum 10%float).
Proof.
  refine (ClientFacts.only_post_helpers_check_status nat Sample.refusing
            Demo.parse Demo.parse Client.additionEndPoint
            Client.resultEndPoint (JNum 10%float) "json" "cbor"
            (Client.mkSession nat 0 [] [])
            (Client.mkHttpResponse false (Some "application/json") "10")
            1 1 "application/json" (JNum 10%float) _ _ _ _ _ _);
    reflexivity.
Defined.

(** [runCalculator] against that server: the three reads resolve, the
    addition is rejected, and nothing is sent after it. *)
Lemma runCalculator_against_refusing_server :
  let s := Client.runCalculator nat Sample.refusing Demo.parse Demo.parse
             (Client.mkSession nat 0 [] []) in
  Client.sent nat s = firstn 4 Client.script
  /\ Client.console nat s =
     [Client.LogValue ("Full thing: " ++ String "010"%char "") (JNum 10%float);
      Client.LogValue "Current number: " (JNum 10%float);
      Client.LogValue "Last Change: " (JNum 10%float);
      Client.LogError (Client.ErrorText "10")].
Proof. cbv zeta. split; vm_compute; reflexivity. Qed.
